(** * Offline/online reconciliation of the book list screen

    A shallow embedding of the list screen [Index] (src/unnamed/part_001),
    of the cache helpers [loadBooksCache]/[saveBooksCache]
    (src/services/BooksService.ts), of the create screen [NewBook]
    (src/app/books/new.tsx), of the delete action of the detail screen
    (src/unnamed/part_002) and of the star handler of [BookForm]
    (src/unnamed/part_000).

    Every [await] of the source is a suspension point: the code that runs
    after it is the handler of an event of type [Event] below, so an
    interleaving of asynchronous completions is a list of events.  A handler
    runs in a small state monad [M] over the [World] (the React state of the
    screens and the AsyncStorage slot) that also records the observable
    outputs: requests issued to the Catalog Client, alerts and status
    notices. *)

From Stdlib Require Import String Ascii List ZArith QArith Bool Lia Sorted Permutation.
From Stdlib Require Import Qround DecimalString DecimalZ.
Import ListNotations.
Local Open Scope string_scope.

(* ------------------------------------------------------------------ *)
(** ** Data model (src/unnamed/part_004, src/services/BooksService.ts) *)

Inductive result (A : Type) : Type :=
| Ok (a : A)
| Err (message : string).
Arguments Ok {A} a.
Arguments Err {A} message.

(** [Book]: optional fields are [option]; JS numbers are rationals
    (every finite double is one). *)
Record Book := mkBook {
  id : string;
  name : string;
  author : string;
  editor : option string;
  year : option Q;
  read : option bool;
  favorite : option bool;
  theme : option string;
  rating : option Q;
  cover : option string
}.

Record BookPayload := mkBookPayload {
  p_name : string;
  p_author : string;
  p_editor : option string;
  p_year : option Q;
  p_read : option bool;
  p_favorite : option bool;
  p_rating : option Q;
  p_cover : option string
}.

Record CachedBookList := mkCachedBookList {
  cached_books : list Book;
  savedAt : Z
}.

(** expo-network's [NetworkState]: both fields may be absent. *)
Record NetworkState := mkNetworkState {
  isConnected : option bool;
  isInternetReachable : option bool
}.

(** [Boolean(state.isConnected) && state.isInternetReachable !== false] *)
Definition isOnline (state : NetworkState) : bool :=
  match isConnected state with Some true => true | _ => false end &&
  negb (match isInternetReachable state with Some false => true | _ => false end).

(** JS truthiness of an optional boolean ([!book.read]) and [?? false]. *)
Definition truthy (b : option bool) : bool :=
  match b with Some true => true | _ => false end.

Definition default_false (b : option bool) : bool :=
  match b with Some v => v | None => false end.

(* ------------------------------------------------------------------ *)
(** ** [Math.min(Math.max(Math.round(x), 1), 5)] *)

(** [Math.round]: the closest integer, ties towards +infinity. *)
Definition jsRound (x : Q) : Z := Qfloor (x + (1 # 2)).

Definition boundRating (rating : Q) : Z :=
  Z.min (Z.max (jsRound rating) 1) 5.

(* ------------------------------------------------------------------ *)
(** ** [syncThemesFromData] *)

Section Themes.

(** [(a, b) => a.localeCompare(b, "fr")]: the collation is the platform's. *)
Variable localeCompare : string -> string -> comparison.

(** [Set.prototype.add]: insertion order, no duplicates. *)
Definition set_add (s : list string) (x : string) : list string :=
  if existsb (String.eqb x) s then s else app s [x].

(** [new Set(prev)] *)
Definition set_of (l : list string) : list string :=
  fold_left set_add l [].

(** [data.forEach(item => { if (item.theme) combined.add(item.theme); })] *)
Definition add_themes (combined : list string) (data : list Book) : list string :=
  fold_left (fun acc item =>
               match theme item with
               | Some t => if String.eqb t "" then acc else set_add acc t
               | None => acc
               end) data combined.

(** [Array.prototype.sort] with a comparator: a stable sort, written as an
    insertion sort that places an element after the ones it does not
    precede. *)
Fixpoint insert_sorted (x : string) (l : list string) : list string :=
  match l with
  | [] => [x]
  | y :: r =>
      match localeCompare x y with
      | Lt => x :: y :: r
      | _ => y :: insert_sorted x r
      end
  end.

Definition sort_strings (l : list string) : list string :=
  fold_left (fun acc x => insert_sorted x acc) l [].

(** [next.length === prev.length && next.every((v, i) => v === prev[i])] *)
Fixpoint same_elements (next prev : list string) : bool :=
  match next, prev with
  | [], [] => true
  | a :: n, b :: p => String.eqb a b && same_elements n p
  | _, _ => false
  end.

(** The updater passed to [setAvailableThemes]: [None] when it returns
    [prev] (React then skips the state write), [Some next] otherwise. *)
Definition syncThemes (prev : list string) (data : list Book)
  : option (list string) :=
  let next := sort_strings (add_themes (set_of prev) data) in
  if same_elements next prev then None else Some next.

End Themes.

(* ------------------------------------------------------------------ *)
(** ** The world: React state of the screens and the AsyncStorage slot *)

(** The code waiting on a [saveBooksCache] call: the rest of [loadBooks]
    after [await saveBooksCache(data)], or the [.then((savedAt) => ...)]
    of an update handler. *)
Inductive SaveCont := LoadBooksSave | UpdateSave.

Record World := mkWorld {
  (* [Index], src/unnamed/part_001 *)
  books : list Book;
  loading : bool;
  initialLoading : bool;
  status : option string;
  availableThemes : list string;
  (** [offlineMode]; every assignment of it in the source is paired with
      the same assignment of [offlineRef.current], and the effect
      [offlineRef.current = offlineMode] keeps them equal, so one field
      stands for both. *)
  offlineMode : bool;
  lastSync : option Z;
  hasLocalCacheRef : bool;
  (** the in-flight [loadBooksCache()] of the mount effect, with the
      snapshot that [AsyncStorage.getItem] read *)
  pendingCache : option (option CachedBookList);
  canceled : bool;
  (** the network listener is registered (its [mounted] is then true) *)
  subscribed : bool;
  (* [NewBook], src/app/books/new.tsx *)
  submitting : bool;
  (* book detail screen, src/unnamed/part_002 *)
  detailStatus : option string;
  (* AsyncStorage, key [BOOKS_CACHE_KEY] *)
  storage : option CachedBookList;
  (** the [saveBooksCache] calls not yet settled, each with the code that
      waits on it and its [savedAt] *)
  pendingSaves : list (SaveCont * Z)
}.

(** Observable effects of a handler. *)
Inductive Out :=
| OGetBooks                                  (* [getBooks(queryParams)] *)
| OLoadBooksCache                            (* [loadBooksCache()] *)
| OGetNetworkState                           (* [Network.getNetworkStateAsync()] *)
| OUpdateBook (bid : string) (payload : BookPayload)
| OCreateBook (payload : BookPayload)
| ODeleteBook (bid : string)
| OAlert (title message : string)            (* [Alert.alert(title, message)] *)
| OStatus (message : string)                 (* [setStatus(message)] *)
| ONavigate (path : string).

(** A state monad over [World] that also collects the outputs. *)
Definition M (A : Type) : Type := World -> A * World * list Out.

Definition ret {A} (a : A) : M A := fun w => (a, w, []).

Definition bind {A B} (m : M A) (k : A -> M B) : M B :=
  fun w =>
    let '(a, w1, o1) := m w in
    let '(b, w2, o2) := k a w1 in
    (b, w2, app o1 o2).

Notation "x <- m ;; k" := (bind m (fun x => k))
  (at level 61, m at next level, right associativity).
Notation "m ;; k" := (bind m (fun _ => k))
  (at level 61, right associativity).

Definition get : M World := fun w => (w, w, []).
Definition modify (f : World -> World) : M unit := fun w => (tt, f w, []).
Definition emit (o : Out) : M unit := fun w => (tt, w, [o]).

Definition setBooks v := modify (fun w => mkWorld v (loading w) (initialLoading w)
  (status w) (availableThemes w) (offlineMode w) (lastSync w) (hasLocalCacheRef w)
  (pendingCache w) (canceled w) (subscribed w) (submitting w) (detailStatus w) (storage w)
  (pendingSaves w)).
Definition setLoading v := modify (fun w => mkWorld (books w) v (initialLoading w)
  (status w) (availableThemes w) (offlineMode w) (lastSync w) (hasLocalCacheRef w)
  (pendingCache w) (canceled w) (subscribed w) (submitting w) (detailStatus w) (storage w)
  (pendingSaves w)).
Definition setInitialLoading v := modify (fun w => mkWorld (books w) (loading w) v
  (status w) (availableThemes w) (offlineMode w) (lastSync w) (hasLocalCacheRef w)
  (pendingCache w) (canceled w) (subscribed w) (submitting w) (detailStatus w) (storage w)
  (pendingSaves w)).
Definition setStatusState v := modify (fun w => mkWorld (books w) (loading w) (initialLoading w)
  v (availableThemes w) (offlineMode w) (lastSync w) (hasLocalCacheRef w)
  (pendingCache w) (canceled w) (subscribed w) (submitting w) (detailStatus w) (storage w)
  (pendingSaves w)).
Definition setAvailableThemes v := modify (fun w => mkWorld (books w) (loading w) (initialLoading w)
  (status w) v (offlineMode w) (lastSync w) (hasLocalCacheRef w)
  (pendingCache w) (canceled w) (subscribed w) (submitting w) (detailStatus w) (storage w)
  (pendingSaves w)).
Definition setOfflineMode v := modify (fun w => mkWorld (books w) (loading w) (initialLoading w)
  (status w) (availableThemes w) v (lastSync w) (hasLocalCacheRef w)
  (pendingCache w) (canceled w) (subscribed w) (submitting w) (detailStatus w) (storage w)
  (pendingSaves w)).
Definition setLastSync v := modify (fun w => mkWorld (books w) (loading w) (initialLoading w)
  (status w) (availableThemes w) (offlineMode w) v (hasLocalCacheRef w)
  (pendingCache w) (canceled w) (subscribed w) (submitting w) (detailStatus w) (storage w)
  (pendingSaves w)).
Definition setHasLocalCacheRef v := modify (fun w => mkWorld (books w) (loading w) (initialLoading w)
  (status w) (availableThemes w) (offlineMode w) (lastSync w) v
  (pendingCache w) (canceled w) (subscribed w) (submitting w) (detailStatus w) (storage w)
  (pendingSaves w)).
Definition setPendingCache v := modify (fun w => mkWorld (books w) (loading w) (initialLoading w)
  (status w) (availableThemes w) (offlineMode w) (lastSync w) (hasLocalCacheRef w)
  v (canceled w) (subscribed w) (submitting w) (detailStatus w) (storage w)
  (pendingSaves w)).
Definition setCanceled v := modify (fun w => mkWorld (books w) (loading w) (initialLoading w)
  (status w) (availableThemes w) (offlineMode w) (lastSync w) (hasLocalCacheRef w)
  (pendingCache w) v (subscribed w) (submitting w) (detailStatus w) (storage w)
  (pendingSaves w)).
Definition setSubscribed v := modify (fun w => mkWorld (books w) (loading w) (initialLoading w)
  (status w) (availableThemes w) (offlineMode w) (lastSync w) (hasLocalCacheRef w)
  (pendingCache w) (canceled w) v (submitting w) (detailStatus w) (storage w)
  (pendingSaves w)).
Definition setSubmitting v := modify (fun w => mkWorld (books w) (loading w) (initialLoading w)
  (status w) (availableThemes w) (offlineMode w) (lastSync w) (hasLocalCacheRef w)
  (pendingCache w) (canceled w) (subscribed w) v (detailStatus w) (storage w)
  (pendingSaves w)).
Definition setDetailStatus v := modify (fun w => mkWorld (books w) (loading w) (initialLoading w)
  (status w) (availableThemes w) (offlineMode w) (lastSync w) (hasLocalCacheRef w)
  (pendingCache w) (canceled w) (subscribed w) (submitting w) v (storage w)
  (pendingSaves w)).
Definition setStorage v := modify (fun w => mkWorld (books w) (loading w) (initialLoading w)
  (status w) (availableThemes w) (offlineMode w) (lastSync w) (hasLocalCacheRef w)
  (pendingCache w) (canceled w) (subscribed w) (submitting w) (detailStatus w) v
  (pendingSaves w)).
Definition setPendingSaves v := modify (fun w => mkWorld (books w) (loading w) (initialLoading w)
  (status w) (availableThemes w) (offlineMode w) (lastSync w) (hasLocalCacheRef w)
  (pendingCache w) (canceled w) (subscribed w) (submitting w) (detailStatus w) (storage w) v).

(** [setStatus(message)]: the notice shown on the list screen. *)
Definition setStatus (message : string) : M unit :=
  setStatusState (Some message) ;; emit (OStatus message).

(** [saveBooksCache(books)] up to its [await AsyncStorage.setItem(...)]:
    [savedAt] is [Date.now()] at the call, and the promise always resolves
    to it.  The write is taken to be applied at the call and to succeed;
    the source only logs a failed write.  The code waiting on the call
    runs when it settles (event [CacheSaved] below). *)
Definition saveBooksCache (bs : list Book) (now : Z) : M Z :=
  setStorage (Some (mkCachedBookList bs now)) ;; ret now.

Definition pending_eqb (p q : SaveCont * Z) : bool :=
  match p, q with
  | (LoadBooksSave, a), (LoadBooksSave, b) | (UpdateSave, a), (UpdateSave, b) => Z.eqb a b
  | _, _ => false
  end.

Fixpoint removeFirst (p : SaveCont * Z) (l : list (SaveCont * Z)) : list (SaveCont * Z) :=
  match l with
  | [] => []
  | q :: rest => if pending_eqb p q then rest else q :: removeFirst p rest
  end.

(** Register the code that waits on a [saveBooksCache] call. *)
Definition awaitSave (k : SaveCont) (savedAt : Z) : M unit :=
  w <- get ;; setPendingSaves (app (pendingSaves w) [(k, savedAt)]).

Definition offlineNotice : string :=
  "Connexion indisponible. Affichage des donnees locales.".

(* ------------------------------------------------------------------ *)
(** ** Handlers of the list screen and of the other screens *)

Section Controller.

Variable localeCompare : string -> string -> comparison.

(** [syncThemesFromData(data)] *)
Definition syncThemesFromData (data : list Book) : M unit :=
  w <- get ;;
  match syncThemes localeCompare (availableThemes w) data with
  | Some next => setAvailableThemes next
  | None => ret tt
  end.

(** [loadBooks()] up to its first [await]: [setLoading(true)] and the
    request [getBooks(queryParams)] (its parameters come from the filter
    state, which is not modelled). *)
Definition loadBooks : M unit :=
  setLoading true ;; emit OGetBooks.

(** The [finally] block of [loadBooks()]. *)
Definition loadBooksFinally : M unit :=
  setLoading false ;;
  setInitialLoading false.

(** The rest of [loadBooks()] once [getBooks] settles at time [now]: on
    success, up to [await saveBooksCache(data)] (which never rejects), the
    code after it waiting on the save; on failure, the [catch] and the
    [finally]. *)
Definition loadBooksSettled (r : result (list Book)) (now : Z) : M unit :=
  match r with
  | Ok data =>
      setBooks data ;;
      syncThemesFromData data ;;
      savedAt <- saveBooksCache data now ;;
      awaitSave LoadBooksSave savedAt
  | Err message =>
      (w <- get ;;
       if hasLocalCacheRef w then
         (if negb (offlineMode w) then setStatus offlineNotice else ret tt) ;;
         setOfflineMode true
       else emit (OAlert "Erreur" message)) ;;
      loadBooksFinally
  end.

(** A [saveBooksCache] call settles with [savedAt]: the code waiting on it
    runs, once. After [loadBooks]: [setLastSync(savedAt)],
    [hasLocalCacheRef.current = true], [setOfflineMode(false)] and the
    [finally]; after an update: the [.then] callback. *)
Definition cacheSaved (k : SaveCont) (savedAt : Z) : M unit :=
  w <- get ;;
  if existsb (pending_eqb (k, savedAt)) (pendingSaves w) then
    setPendingSaves (removeFirst (k, savedAt) (pendingSaves w)) ;;
    match k with
    | LoadBooksSave =>
        setLastSync (Some savedAt) ;;
        setHasLocalCacheRef true ;;
        setOfflineMode false ;;
        loadBooksFinally
    | UpdateSave =>
        setLastSync (Some savedAt) ;;
        setHasLocalCacheRef true
    end
  else ret tt.

(** Mount: the cache-load effect starts [loadBooksCache()] (which reads the
    snapshot present in AsyncStorage), [useFocusEffect] runs [loadBooks()],
    the network effect registers its listener and asks for the current
    network state. *)
Definition mount : M unit :=
  w <- get ;;
  setCanceled false ;;
  setPendingCache (Some (storage w)) ;;
  emit OLoadBooksCache ;;
  loadBooks ;;
  setSubscribed true ;;
  emit OGetNetworkState.

(** Cleanup of the effects: [canceled = true], [mounted = false] and
    [subscription.remove()]. *)
Definition unmount : M unit :=
  setCanceled true ;; setSubscribed false.

(** The cache-load effect after [await loadBooksCache()]. *)
Definition cacheLoadSettled : M unit :=
  w <- get ;;
  match pendingCache w with
  | None => ret tt
  | Some cached =>
      setPendingCache None ;;
      match cached with
      | None => ret tt
      | Some c =>
          if canceled w then ret tt else
          setHasLocalCacheRef true ;;
          setBooks (cached_books c) ;;
          syncThemesFromData (cached_books c) ;;
          setLastSync (Some (savedAt c)) ;;
          setLoading false ;;
          setInitialLoading false
      end
  end.

(** The callback given to [Network.addNetworkStateListener]. *)
Definition networkListener (state : NetworkState) : M unit :=
  w <- get ;;
  if subscribed w then
    if isOnline state then
      let wasOffline := offlineMode w in
      setOfflineMode false ;;
      (if wasOffline then loadBooks else ret tt)
    else setOfflineMode true
  else ret tt.

(** The network effect after [await Network.getNetworkStateAsync()]. *)
Definition networkStateSettled (state : NetworkState) : M unit :=
  w <- get ;;
  if subscribed w then
    if negb (isOnline state) && hasLocalCacheRef w then setOfflineMode true
    else ret tt
  else ret tt.

(** The auto-dismiss timer of the status effect. *)
Definition statusTimeout : M unit := setStatusState None.

(** The payloads sent by [handleToggleRead], [handleToggleFavorite] and
    [handleRate]. *)
Definition toggleReadPayload (book : Book) : BookPayload :=
  mkBookPayload (name book) (author book) (editor book) (year book)
    (Some (negb (truthy (read book)))) (Some (default_false (favorite book)))
    (rating book) (cover book).

Definition toggleFavoritePayload (book : Book) : BookPayload :=
  mkBookPayload (name book) (author book) (editor book) (year book)
    (Some (default_false (read book))) (Some (negb (truthy (favorite book))))
    (rating book) (cover book).

Definition ratePayload (book : Book) (r : Q) : BookPayload :=
  mkBookPayload (name book) (author book) (editor book) (year book)
    (Some (default_false (read book))) (Some (default_false (favorite book)))
    (Some (inject_Z (boundRating r))) (cover book).

(** The three update handlers up to [await updateBook(...)]. *)
Definition handleToggleRead (book : Book) : M unit :=
  emit (OUpdateBook (id book) (toggleReadPayload book)).

Definition handleToggleFavorite (book : Book) : M unit :=
  emit (OUpdateBook (id book) (toggleFavoritePayload book)).

Definition handleRate (book : Book) (r : Q) : M unit :=
  emit (OUpdateBook (id book) (ratePayload book r)).

(** [prev.map((item) => (item.id === book.id ? updated : item))] *)
Definition replaceBook (bid : string) (updated : Book) (prev : list Book) : list Book :=
  map (fun item => if String.eqb (id item) bid then updated else item) prev.

(** The common rest of the three update handlers once [updateBook]
    settles at time [now]; [message] is the status of the success path.
    The [.then] of [saveBooksCache(next)] waits on the save. *)
Definition updateSettled (book : Book) (r : result Book) (now : Z)
  (message : string) : M unit :=
  match r with
  | Ok updated =>
      w <- get ;;
      let next := replaceBook (id book) updated (books w) in
      setBooks next ;;
      syncThemesFromData next ;;
      savedAt <- saveBooksCache next now ;;
      awaitSave UpdateSave savedAt ;;
      setOfflineMode false ;;
      setStatus message
  | Err message' =>
      setOfflineMode true ;;
      emit (OAlert "Erreur" message')
  end.

Definition string_of_Z (z : Z) : string :=
  NilEmpty.string_of_int (Z.to_int z).

Definition toggleReadSettled (book : Book) (r : result Book) (now : Z) : M unit :=
  updateSettled book r now
    (if truthy (read book)
     then "Livre marque comme non lu : " ++ name book
     else "Livre marque comme lu : " ++ name book).

Definition toggleFavoriteSettled (book : Book) (r : result Book) (now : Z) : M unit :=
  updateSettled book r now
    (if negb (truthy (favorite book))
     then "Livre ajoute aux favoris : " ++ name book
     else "Livre retire des favoris : " ++ name book).

Definition rateSettled (book : Book) (rt : Q) (r : result Book) (now : Z) : M unit :=
  updateSettled book r now
    ("Note mise a jour : " ++ string_of_Z (boundRating rt) ++ " etoile(s) pour "
       ++ name book).

(** [NewBook.handleSubmit] (src/app/books/new.tsx). *)
Definition handleSubmit (values : BookPayload) : M unit :=
  setSubmitting true ;; emit (OCreateBook values).

Definition createSettled (r : result Book) : M unit :=
  (match r with
   | Ok _ => emit (OAlert "Succès" "Livre ajouté avec succès.")
   | Err message => emit (OAlert "Erreur" message)
   end) ;;
  setSubmitting false.

(** The confirmed delete of the detail screen (src/unnamed/part_002). *)
Definition handleDelete (book : Book) : M unit :=
  emit (ODeleteBook (id book)).

Definition deleteSettled (book : Book) (r : result unit) : M unit :=
  match r with
  | Ok _ =>
      setDetailStatus (Some ("Livre supprimé : " ++ name book)) ;;
      emit (ONavigate "/")
  | Err message => emit (OAlert "Erreur" message)
  end.

(** Events: user actions, network callbacks and settled promises. *)
Inductive Event :=
| Mount
| Unmount
| CacheLoadSettled
| Focus
| GetBooksSettled (r : result (list Book)) (now : Z)
| CacheSaved (k : SaveCont) (savedAt : Z)
| NetworkChange (state : NetworkState)
| NetworkStateSettled (state : NetworkState)
| StatusTimeout
| PressToggleRead (book : Book)
| ToggleReadSettled (book : Book) (r : result Book) (now : Z)
| PressToggleFavorite (book : Book)
| ToggleFavoriteSettled (book : Book) (r : result Book) (now : Z)
| PressRate (book : Book) (rt : Q)
| RateSettled (book : Book) (rt : Q) (r : result Book) (now : Z)
| SubmitNew (values : BookPayload)
| CreateSettled (r : result Book)
| ConfirmDelete (book : Book)
| DeleteSettled (book : Book) (r : result unit).

Definition handler (e : Event) : M unit :=
  match e with
  | Mount => mount
  | Unmount => unmount
  | CacheLoadSettled => cacheLoadSettled
  | Focus => loadBooks
  | GetBooksSettled r now => loadBooksSettled r now
  | CacheSaved k savedAt => cacheSaved k savedAt
  | NetworkChange s => networkListener s
  | NetworkStateSettled s => networkStateSettled s
  | StatusTimeout => statusTimeout
  | PressToggleRead b => handleToggleRead b
  | ToggleReadSettled b r now => toggleReadSettled b r now
  | PressToggleFavorite b => handleToggleFavorite b
  | ToggleFavoriteSettled b r now => toggleFavoriteSettled b r now
  | PressRate b rt => handleRate b rt
  | RateSettled b rt r now => rateSettled b rt r now
  | SubmitNew v => handleSubmit v
  | CreateSettled r => createSettled r
  | ConfirmDelete b => handleDelete b
  | DeleteSettled b r => deleteSettled b r
  end.

(** One step: the new world and the outputs. *)
Definition step (w : World) (e : Event) : World * list Out :=
  let '(_, w', outs) := handler e w in (w', outs).

(** A run of a list of events, with all outputs in order. *)
Fixpoint run (w : World) (es : list Event) : World * list Out :=
  match es with
  | [] => (w, [])
  | e :: es' =>
      let '(w1, o1) := step w e in
      let '(w2, o2) := run w1 es' in
      (w2, app o1 o2)
  end.

(** The world before the list screen mounts, with a given AsyncStorage. *)
Definition initialWorld (stored : option CachedBookList) : World :=
  mkWorld [] true true None [] false None false None false false false None stored [].

(** The worlds reachable from an initial one. *)
Inductive reachable : World -> Prop :=
| reachable_init stored : reachable (initialWorld stored)
| reachable_step w e : reachable w -> reachable (fst (step w e)).

End Controller.

(** [BookForm.handleStarPress] (src/unnamed/part_000): the value stored by
    [setRating]. *)
Definition handleStarPress (value : Q) : Z :=
  Z.min (Z.max (jsRound value) 1) 5.

(* ------------------------------------------------------------------ *)
(** ** Catalog Client and cache payloads (src/services/BooksService.ts) *)

(** JSON values as [JSON.parse] returns them. *)
Local Set Warnings "-register-all".
Inductive Json :=
| JNull
| JBool (b : bool)
| JNum (q : Q)
| JStr (s : string)
| JArr (items : list Json)
| JObj (fields : list (string * Json)).

(** Property read [v.k] on a parsed JSON value: the last binding of [k] in
    an object ([JSON.parse] keeps the last duplicate), [undefined]
    ([None]) on every other value. *)
Definition jget (v : Json) (k : string) : option Json :=
  match v with
  | JObj fields =>
      fold_left (fun acc kv => if String.eqb (fst kv) k then Some (snd kv) else acc)
        fields None
  | _ => None
  end.

(** JS truthiness of a JSON value. *)
Definition jtruthy (v : Json) : bool :=
  match v with
  | JNull => false
  | JBool b => b
  | JNum q => negb (Qeq_bool q 0)
  | JStr s => negb (String.eqb s "")
  | JArr _ | JObj _ => true
  end.

(** What [fetch] gives [request]: a rejected promise, or a response whose
    body [response.json()] parses to [Some v] or fails to parse ([None]). *)
Inductive FetchOutcome :=
| NetworkFailure
| Response (ok : bool) (statusCode : Z) (body : option Json).

(** Why a [request] promise rejects: the [fetch] rejection, the
    [response.json()] parse error, or [new Error(message)] for a non-2xx
    response, with the value given to the [Error] constructor. *)
Inductive RequestError :=
| ENetwork
| EBodyParse
| EHttp (message : Json).

(** A settled [request]: [Some v] is a parsed body, [None] is [undefined]. *)
Definition RequestResult : Type := (option Json + RequestError)%type.

Definition requestFailedMessage (statusCode : Z) : string :=
  "La requête a échoué avec le statut " ++ string_of_Z statusCode.

(** [safeParseError(response)] *)
Definition safeParseError (statusCode : Z) (body : option Json) : Json :=
  match body with
  | Some v =>
      match jget v "message" with
      | Some m => if jtruthy m then m else JStr (requestFailedMessage statusCode)
      | None => JStr (requestFailedMessage statusCode)
      end
  | None => JStr (requestFailedMessage statusCode)
  end.

(** [request(path, init, expectsBody)] once [fetch] has settled. *)
Definition request (outcome : FetchOutcome) (expectsBody : bool) : RequestResult :=
  match outcome with
  | NetworkFailure => inr ENetwork
  | Response ok statusCode body =>
      if negb ok then inr (EHttp (safeParseError statusCode body))
      else if negb expectsBody then inl None
      else match body with
           | Some v => inl (Some v)
           | None => inr EBodyParse
           end
  end.
(** What [AsyncStorage.getItem(BOOKS_CACHE_KEY)] gives [loadBooksCache]:
    a rejection, [null], the empty string, or a text that [JSON.parse]
    turns into [Some v] or rejects ([None]). *)
Inductive StorageRead :=
| ReadFailed
| ReadNull
| ReadEmpty
| ReadText (parsed : option Json).

(** [loadBooksCache()] at time [now] on the JSON level: the [books] array
    (cast to [Book[]] without any check of its items) and [savedAt]. *)
Definition loadBooksCacheJson (r : StorageRead) (now : Z) : option (list Json * Q) :=
  match r with
  | ReadText (Some parsed) =>
      if negb (jtruthy parsed) then None else
      match jget parsed "books" with
      | Some (JArr items) =>
          Some (items,
                match jget parsed "savedAt" with
                | Some (JNum q) => q
                | _ => inject_Z now
                end)
      | _ => None
      end
  | _ => None
  end.

(** The [payload] that [saveBooksCache] serialises, its [books] already
    turned into JSON values. *)
Definition cachePayload (items : list Json) (savedAt : Z) : Json :=
  JObj [("books", JArr items); ("savedAt", JNum (inject_Z savedAt))].

(** [NoteResponse] and [Note]; [String(n)] of an integer below [10^21] in
    absolute value is its decimal writing. *)
Record NoteResponse := mkNoteResponse {
  nr_id : Z; nr_bookId : Z; nr_content : string; nr_dateISO : string }.

Record Note := mkNote {
  note_id : string; note_bookId : string; note_content : string; note_dateISO : string }.

(** [mapNote(response)] *)
Definition mapNote (response : NoteResponse) : Note :=
  mkNote (string_of_Z (nr_id response)) (string_of_Z (nr_bookId response))
    (nr_content response) (nr_dateISO response).

(** Upper-case hexadecimal digit of [n < 16]: ['0'] is byte 48, ['A'] byte 65. *)
Definition hexDigit (n : nat) : ascii :=
  ascii_of_nat (if Nat.ltb n 10 then 48 + n else 55 + n)%nat.

(** [encodeURIComponent(s)] on the UTF-16 code units of [s]: the
    unreserved characters [A-Z a-z 0-9 - _ . ! ~ * ' ( )] are kept; any
    other code point, a surrogate pair being combined first, is written as
    its UTF-8 bytes in [%XY] form; an unpaired surrogate throws a
    [URIError] ([None]). *)
Definition uriUnreserved (c : Z) : bool :=
  (((65 <=? c) && (c <=? 90)) || ((97 <=? c) && (c <=? 122)) ||
   ((48 <=? c) && (c <=? 57)) || existsb (Z.eqb c) [45; 95; 46; 33; 126; 42; 39; 40; 41])%Z.

Definition isLeadSurrogate (c : Z) : bool := ((55296 <=? c) && (c <=? 56319))%Z.

Definition isTrailSurrogate (c : Z) : bool := ((56320 <=? c) && (c <=? 57343))%Z.

Definition utf16Decode (lead trail : Z) : Z :=
  (65536 + Z.shiftl (lead - 55296) 10 + (trail - 56320))%Z.

Definition utf8Bytes (cp : Z) : list Z :=
  (if cp <? 128 then [cp]
  else if cp <? 2048 then
    [Z.lor 192 (Z.shiftr cp 6); Z.lor 128 (Z.land cp 63)]
  else if cp <? 65536 then
    [Z.lor 224 (Z.shiftr cp 12); Z.lor 128 (Z.land (Z.shiftr cp 6) 63);
     Z.lor 128 (Z.land cp 63)]
  else
    [Z.lor 240 (Z.shiftr cp 18); Z.lor 128 (Z.land (Z.shiftr cp 12) 63);
     Z.lor 128 (Z.land (Z.shiftr cp 6) 63); Z.lor 128 (Z.land cp 63)])%Z.

Definition percentEncode (bytes : list Z) : string :=
  fold_right
    (fun b acc =>
       String "%"%char (String (hexDigit (Z.to_nat (Z.shiftr b 4%Z)))
         (String (hexDigit (Z.to_nat (Z.land b 15%Z))) acc)))
    EmptyString bytes.

Fixpoint encodeURIComponent (s : list Z) : option string :=
  match s with
  | [] => Some EmptyString
  | c :: rest =>
      if uriUnreserved c then
        option_map (String (ascii_of_nat (Z.to_nat c))) (encodeURIComponent rest)
      else if isTrailSurrogate c then None
      else if isLeadSurrogate c then
        match rest with
        | d :: rest' =>
            if isTrailSurrogate d then
              option_map (String.append (percentEncode (utf8Bytes (utf16Decode c d))))
                (encodeURIComponent rest')
            else None
        | [] => None
        end
      else option_map (String.append (percentEncode (utf8Bytes c))) (encodeURIComponent rest)
  end.

(** Well-formed UTF-16, following the Unicode standard rather than the
    code: every lead surrogate is directly followed by a trail surrogate,
    and every trail surrogate directly follows a lead surrogate. *)
Inductive WellFormedUtf16 : list Z -> Prop :=
| wf_nil : WellFormedUtf16 []
| wf_unit c s : isLeadSurrogate c = false -> isTrailSurrogate c = false ->
    WellFormedUtf16 s -> WellFormedUtf16 (c :: s)
| wf_pair c d s : isLeadSurrogate c = true -> isTrailSurrogate d = true ->
    WellFormedUtf16 s -> WellFormedUtf16 (c :: d :: s).

(** What an [async] function throws, as the rejection of its promise. *)
Inductive ThrownError :=
| TError (message : string)
| TURIError.

Definition openLibraryError : string := "La recherche OpenLibrary a echoue.".

(** [data.docs?.find((doc) => typeof doc.edition_count === "number")]:
    [inr tt] when reading [doc.edition_count] throws (a [null] item). *)
Fixpoint findEditionCount (docs : list Json) : option Q + unit :=
  match docs with
  | [] => inl None
  | JNull :: _ => inr tt
  | doc :: rest =>
      match jget doc "edition_count" with
      | Some (JNum q) => inl (Some q)
      | _ => findEditionCount rest
      end
  end.

(** [fetchEditionCountByTitle(title)], the title given as UTF-16 code
    units. [encodeURIComponent(title)] runs first, outside any [try]: on an
    unpaired surrogate its [URIError] rejects the call and nothing is
    fetched. Otherwise [outcome] is what [fetch] of the search URL gave;
    [inl] is the resolved [number | null], [inr] the thrown error. Every
    [TypeError] raised while reading the body is caught by the second
    [try]. *)
Definition fetchEditionCountByTitle (title : list Z) (outcome : FetchOutcome)
  : option Q + ThrownError :=
  match encodeURIComponent title with
  | None => inr TURIError
  | Some _ =>
  match outcome with
  | NetworkFailure => inr (TError openLibraryError)
  | Response ok _ body =>
      if negb ok then inr (TError openLibraryError) else
      match body with
      | None => inr (TError openLibraryError)
      | Some JNull => inr (TError openLibraryError)
      | Some data =>
          let found :=
            match jget data "docs" with
            | None | Some JNull => inl None
            | Some (JArr docs) => findEditionCount docs
            | Some _ => inr tt
            end in
          match found with
          | inr _ => inr (TError openLibraryError)
          | inl (Some q) => inl (Some q)
          | inl None =>
              match jget data "numFound" with
              | Some (JNum q) => inl (Some q)
              | _ => inl None
              end
          end
      end
  end
  end.

(* ------------------------------------------------------------------ *)
(** ** [buildQuery] and the [URLSearchParams] serialisation *)

Inductive SortField := SortTitle | SortAuthor | SortTheme | SortYear | SortRating.
Inductive SortOrder := Asc | Desc.

Definition sortFieldString (f : SortField) : string :=
  match f with
  | SortTitle => "title" | SortAuthor => "author" | SortTheme => "theme"
  | SortYear => "year" | SortRating => "rating"
  end.

Definition sortOrderString (o : SortOrder) : string :=
  match o with Asc => "asc" | Desc => "desc" end.

(** [GetBooksParams]; a [null] [read] or [favorite] is not a boolean and
    counts as absent, as does [undefined]. *)
Record GetBooksParams := mkGetBooksParams {
  gp_query : option string;
  gp_read : option bool;
  gp_favorite : option bool;
  gp_theme : option string;
  gp_sort : option SortField;
  gp_order : option SortOrder
}.

(** The bytes the [application/x-www-form-urlencoded] serialiser keeps:
    [*], [-], [.], digits, upper-case letters, [_], lower-case letters. *)
Definition keptByte (n : nat) : bool :=
  (Nat.eqb n 42 || Nat.eqb n 45 || Nat.eqb n 46 || (Nat.leb 48 n && Nat.leb n 57) ||
   (Nat.leb 65 n && Nat.leb n 90) || Nat.eqb n 95 || (Nat.leb 97 n && Nat.leb n 122))%nat.

(** One UTF-8 byte: space becomes [+], a kept byte stays, any other is
    written [%XY] in upper-case hexadecimal. *)
Definition encodeByte (c : ascii) : string :=
  let n := nat_of_ascii c in
  if Nat.eqb n 32 then "+"
  else if keptByte n then String c EmptyString
  else String "%"%char (String (hexDigit (Nat.div n 16)) (String (hexDigit (Nat.modulo n 16)) EmptyString)).

Fixpoint formEncode (s : string) : string :=
  match s with
  | EmptyString => EmptyString
  | String c rest => encodeByte c ++ formEncode rest
  end.

(** [URLSearchParams.prototype.toString] on name/value pairs. *)
Fixpoint serializeParams (pairs : list (string * string)) : string :=
  match pairs with
  | [] => ""
  | [(k, v)] => formEncode k ++ "=" ++ formEncode v
  | (k, v) :: rest => formEncode k ++ "=" ++ formEncode v ++ "&" ++ serializeParams rest
  end.

Definition jsTruthyString (s : option string) : option string :=
  match s with Some v => if String.eqb v "" then None else Some v | None => None end.

Definition boolString (b : bool) : string := if b then "true" else "false".

(** The [query.set(...)] calls of [buildQuery], in order. *)
Definition queryPairs (params : GetBooksParams) : list (string * string) :=
  app (match jsTruthyString (gp_query params) with Some q => [("q", q)] | None => [] end)
  (app (match gp_read params with Some b => [("read", boolString b)] | None => [] end)
  (app (match gp_favorite params with Some b => [("favorite", boolString b)] | None => [] end)
  (app (match jsTruthyString (gp_theme params) with Some t => [("theme", t)] | None => [] end)
  (app (match gp_sort params with Some f => [("sort", sortFieldString f)] | None => [] end)
       (match gp_order params with Some o => [("order", sortOrderString o)] | None => [] end))))).

(** [buildQuery(params)] *)
Definition buildQuery (params : option GetBooksParams) : string :=
  match params with
  | None => ""
  | Some p =>
      let qs := serializeParams (queryPairs p) in
      if String.eqb qs "" then "" else "?" ++ qs
  end.

(** [getBooks(params)]: the path it requests. *)
Definition getBooksPath (params : option GetBooksParams) : string :=
  "/books" ++ buildQuery params.

(* ------------------------------------------------------------------ *)
(** ** [String.prototype.trim] on UTF-8 bytes *)

(** The code points [trim] removes (WhiteSpace and LineTerminator), as
    UTF-8 byte sequences: U+0009..U+000D, U+0020, U+00A0, U+1680,
    U+2000..U+200A, U+2028, U+2029, U+202F, U+205F, U+3000, U+FEFF. *)
Definition jsWhitespace : list (list nat) :=
  ([[9]; [10]; [11]; [12]; [13]; [32]; [194; 160]; [225; 154; 128]]
   ++ map (fun b => [226; 128; b]) (seq 128 11)
   ++ [[226; 128; 168]; [226; 128; 169]; [226; 128; 175]; [226; 129; 159];
       [227; 128; 128]; [239; 187; 191]])%list%nat.

Fixpoint bytesPrefix (p : list nat) (l : list ascii) : bool :=
  match p, l with
  | [], _ => true
  | n :: p', c :: l' => Nat.eqb n (nat_of_ascii c) && bytesPrefix p' l'
  | _ :: _, [] => false
  end.

(** Length of the whitespace sequence among [seqs] that starts [l]. *)
Definition wsLength (seqs : list (list nat)) (l : list ascii) : nat :=
  match find (fun p => bytesPrefix p l) seqs with
  | Some p => length p
  | None => O
  end.

Fixpoint dropWhitespace (fuel : nat) (seqs : list (list nat)) (l : list ascii)
  : list ascii :=
  match fuel with
  | O => l
  | S fuel' =>
      match wsLength seqs l with
      | O => l
      | n => dropWhitespace fuel' seqs (skipn n l)
      end
  end.

Definition trim (s : string) : string :=
  let l := list_ascii_of_string s in
  let front := dropWhitespace (length l) jsWhitespace l in
  let back := dropWhitespace (length front) (map (@rev nat) jsWhitespace) (rev front) in
  string_of_list_ascii (rev back).

(* ------------------------------------------------------------------ *)
(** ** Filters of the list screen (src/unnamed/part_001) *)

Inductive FilterRead := Tous | Lus | NonLus.

Record Filters := mkFilters {
  search : string;
  filterRead : FilterRead;
  onlyFavorites : bool;
  selectedTheme : string;   (* ["tous"] or a theme *)
  sort : SortField;
  order : SortOrder
}.

(** [queryParams] *)
Definition queryParams (f : Filters) : GetBooksParams :=
  mkGetBooksParams
    (if String.eqb (trim (search f)) "" then None else Some (trim (search f)))
    (match filterRead f with Tous => None | Lus => Some true | NonLus => Some false end)
    (if onlyFavorites f then Some true else None)
    (if String.eqb (selectedTheme f) "tous" then None else Some (selectedTheme f))
    (Some (sort f))
    (Some (order f)).

(** [hasActiveFilters] *)
Definition hasActiveFilters (f : Filters) : bool :=
  match filterRead f with Tous => false | _ => true end ||
  onlyFavorites f ||
  negb (String.eqb (selectedTheme f) "tous") ||
  match sort f with SortTitle => false | _ => true end ||
  match order f with Asc => false | Desc => true end.

(* ------------------------------------------------------------------ *)
(** ** [BookForm] (src/unnamed/part_000) *)

Record FormState := mkFormState {
  f_name : string;
  f_author : string;
  f_editor : string;
  f_yearText : string;
  f_read : bool;
  f_favorite : bool;
  f_rating : Q;
  f_cover : option string
}.

Record FormError := mkFormError {
  e_name : option string;
  e_author : option string;
  e_year : option string
}.

Section Form.

(** [Number(text)]: the platform's conversion, [None] for [NaN]. *)
Variable jsNumber : string -> option Q.

(** [handleSubmit] of the form: the errors it sets and the payload it
    passes to [onSubmit], if it gets that far. *)
Definition formSubmit (f : FormState) : FormError * option BookPayload :=
  let trimmedName := trim (f_name f) in
  let trimmedAuthor := trim (f_author f) in
  let nameErr := if String.eqb trimmedName "" then Some "Le nom est requis." else None in
  let authorErr := if String.eqb trimmedAuthor "" then Some "L'auteur est requis." else None in
  let '(yearErr, parsedYear) :=
    if String.eqb (trim (f_yearText f)) "" then (None, None)
    else match jsNumber (trim (f_yearText f)) with
         | None => (Some "L'annee doit etre un nombre.", None)
         | Some v => (None, Some v)
         end in
  let errors := mkFormError nameErr authorErr yearErr in
  match nameErr, authorErr, yearErr with
  | None, None, None =>
      (errors,
       Some (mkBookPayload trimmedName trimmedAuthor
               (if String.eqb (trim (f_editor f)) "" then None else Some (trim (f_editor f)))
               parsedYear (Some (f_read f)) (Some (f_favorite f))
               (Some (f_rating f)) (f_cover f)))
  | _, _, _ => (errors, None)
  end.

End Form.

(** The [initialRating] of the form: a number in [1, 5], or 0. *)
Definition initialRating (initial : option Q) : Q :=
  match initial with
  | Some r => if Qle_bool 1 r && Qle_bool r 5 then r else 0
  | None => 0
  end.

(* ------------------------------------------------------------------ *)
(** ** [handleRate] of the book detail screen (src/app/books/[id].tsx) *)

(** The request it issues, if any: [Math.round] without clamping, and
    nothing when the result is outside [1, 5]. *)
Definition detailHandleRate (book : option Book) (r : Q) : list Out :=
  match book with
  | None => []
  | Some b =>
      let boundedRating := jsRound r in
      if (boundedRating <? 1)%Z || (5 <? boundedRating)%Z then []
      else [OUpdateBook (id b)
              (mkBookPayload (name b) (author b) (editor b) (year b)
                 (Some (default_false (read b))) (Some (default_false (favorite b)))
                 (Some (inject_Z boundedRating)) (cover b))]
  end.

(* ------------------------------------------------------------------ *)
(** ** Reading a form-urlencoded query string back *)

(** Not part of the program: the reading a server applies to the query
    string, used to state what [buildQuery] sends. *)

Fixpoint hasChar (a : ascii) (s : string) : bool :=
  match s with
  | EmptyString => false
  | String c rest => if ascii_dec c a then true else hasChar a rest
  end.

Definition hexValue (c : ascii) : nat :=
  let n := nat_of_ascii c in
  if (Nat.leb 48 n && Nat.leb n 57)%nat then (n - 48)%nat
  else if (Nat.leb 65 n && Nat.leb n 70)%nat then (n - 55)%nat
  else if (Nat.leb 97 n && Nat.leb n 102)%nat then (n - 87)%nat
  else O.

(** [+] is a space, [%XY] the byte [XY]. *)
Fixpoint formDecode (s : string) : string :=
  match s with
  | EmptyString => EmptyString
  | String c rest =>
      if ascii_dec c "+" then String " " (formDecode rest)
      else if ascii_dec c "%" then
        match rest with
        | String h (String l rest') =>
            String (ascii_of_nat (hexValue h * 16 + hexValue l)%nat) (formDecode rest')
        | _ => String c (formDecode rest)
        end
      else String c (formDecode rest)
  end.

(** The pieces of [s] between the occurrences of [sep]. *)
Fixpoint splitOn (sep : ascii) (s : string) : list string :=
  match s with
  | EmptyString => [EmptyString]
  | String c rest =>
      if ascii_dec c sep then EmptyString :: splitOn sep rest
      else match splitOn sep rest with
           | x :: xs => String c x :: xs
           | [] => [String c EmptyString]
           end
  end.

(** [s] cut at the first [sep]. *)
Fixpoint breakAt (sep : ascii) (s : string) : string * string :=
  match s with
  | EmptyString => (EmptyString, EmptyString)
  | String c rest =>
      if ascii_dec c sep then (EmptyString, rest)
      else let '(x, y) := breakAt sep rest in (String c x, y)
  end.

Definition decodeQuery (qs : string) : list (string * string) :=
  match qs with
  | String c rest =>
      if ascii_dec c "?" then
        map (fun part => let '(k, v) := breakAt "=" part in (formDecode k, formDecode v))
          (splitOn "&" rest)
      else []
  | EmptyString => []
  end.

(** The [name=value] piece [serializeParams] writes for one pair. *)
Definition encodePair (kv : string * string) : string :=
  formEncode (fst kv) ++ "=" ++ formEncode (snd kv).

(** Sample inputs for the concrete runs below. *)
Definition sampleBook (bid t : string) : Book :=
  mkBook bid "Dune" "Herbert" None None None None (Some t) None None.

Definition samplePayload : BookPayload :=
  mkBookPayload "Dune" "Herbert" None None (Some false) (Some false) None None.

Definition oldSnapshot : CachedBookList :=
  mkCachedBookList [sampleBook "1" "Roman"] 1.

Definition freshBooks : list Book := [sampleBook "2" "Essai"].

Definition disconnected : NetworkState := mkNetworkState (Some false) None.

Definition connected : NetworkState := mkNetworkState (Some true) None.

(** Sample worlds, all reached from a fresh mount. *)
Definition worldWithCache : World :=
  fst (run String.compare (initialWorld (Some oldSnapshot)) [Mount; CacheLoadSettled]).

Definition worldOffline : World :=
  fst (run String.compare worldWithCache [NetworkChange disconnected]).

Definition worldMountedNoCache : World :=
  fst (step String.compare (initialWorld None) Mount).

(** No cache; two list fetches in flight (mount, then focus); the first has
    succeeded and its cache write is still pending. *)
Definition worldFetchSavePending : World :=
  fst (run String.compare (initialWorld None)
         [Mount; Focus; GetBooksSettled (Ok freshBooks) 5]).

Definition worldAfterLiveFetch : World :=
  fst (run String.compare (initialWorld (Some oldSnapshot))
         [Mount; GetBooksSettled (Ok freshBooks) 5]).

(* ================================================================== *)
(** * Properties *)

Ltac unfold_world :=
  unfold step, handler, loadBooksSettled, loadBooksFinally, cacheSaved, awaitSave,
    networkListener,
    networkStateSettled, cacheLoadSettled, mount, loadBooks, unmount, statusTimeout,
    toggleReadSettled, toggleFavoriteSettled, rateSettled, updateSettled,
    handleToggleRead, handleToggleFavorite, handleRate, handleSubmit,
    createSettled, handleDelete, deleteSettled, syncThemesFromData,
    saveBooksCache, setStatus,
    setBooks, setLoading, setInitialLoading, setStatusState,
    setAvailableThemes, setOfflineMode, setLastSync, setHasLocalCacheRef,
    setPendingCache, setCanceled, setSubscribed, setSubmitting,
    setDetailStatus, setStorage, setPendingSaves, bind, ret, get, modify, emit in *.

(** Case split on the [match]es left in the goal. *)
Ltac split_matches :=
  repeat match goal with
  | |- context [match ?x with _ => _ end] =>
      lazymatch x with
      | context [match _ with _ => _ end] => fail
      | _ => destruct x eqn:?
      end
  end.

(** The same, on a hypothesis, reducing after each split. *)
Ltac split_matches_in H :=
  repeat match type of H with
  | context [match ?x with _ => _ end] =>
      lazymatch x with
      | context [match _ with _ => _ end] => fail
      | _ => destruct x eqn:?; cbn -[offlineNotice replaceBook] in H
      end
  end.

(** ** The theme list *)

Section ThemeFacts.

Lemma set_add_In (s : list string) (x y : string) :
  In y (set_add s x) <-> In y s \/ y = x.
Proof.
  unfold set_add. destruct (existsb (String.eqb x) s) eqn:E.
  - apply existsb_exists in E as [z [Hz Ez]].
    apply String.eqb_eq in Ez; subst z.
    split; [auto | intros [H | ->]; auto].
  - rewrite in_app_iff; cbn. intuition.
Qed.

Lemma set_add_NoDup (s : list string) (x : string) :
  NoDup s -> NoDup (set_add s x).
Proof.
  intros Hs. unfold set_add. destruct (existsb (String.eqb x) s) eqn:E; auto.
  apply NoDup_app; auto.
  - constructor; [intros [] | constructor].
  - intros y Hy [Hxy | []]. rewrite <- Hxy in Hy.
    assert (existsb (String.eqb x) s = true) as E'.
    { apply existsb_exists. exists x. split; auto. apply String.eqb_refl. }
    congruence.
Qed.

Lemma fold_set_add_In (l acc : list string) (y : string) :
  In y (fold_left set_add l acc) <-> In y acc \/ In y l.
Proof.
  revert acc; induction l as [|x l IH]; intros acc; cbn.
  - intuition.
  - rewrite IH, set_add_In. intuition.
Qed.

Lemma fold_set_add_NoDup (l acc : list string) :
  NoDup acc -> NoDup (fold_left set_add l acc).
Proof.
  revert acc; induction l as [|x l IH]; intros acc Hacc; cbn; auto.
  apply IH, set_add_NoDup, Hacc.
Qed.

Lemma add_themes_In (acc : list string) (data : list Book) (y : string) :
  In y (add_themes acc data) <->
  In y acc \/ exists b, In b data /\ theme b = Some y /\ y <> "".
Proof.
  unfold add_themes. revert acc; induction data as [|b data IH]; intros acc; cbn.
  - split; [auto | intros [H | [b [[] _]]]; auto].
  - rewrite IH. destruct (theme b) as [t|] eqn:Et.
    + destruct (String.eqb_spec t "") as [Ht | Ht].
      * split.
        -- intros [H | [b' [Hb' Hy]]]; [auto | eauto].
        -- intros [H | [b' [[<- | Hb'] [Hy Hne]]]]; [auto | | eauto].
           rewrite Et in Hy; congruence.
      * rewrite set_add_In. split.
        -- intros [[H | <-] | [b' [Hb' Hy]]]; [auto | right; eauto | eauto].
        -- intros [H | [b' [[<- | Hb'] [Hy Hne]]]]; [auto | | eauto].
           rewrite Et in Hy. injection Hy as <-. auto.
    + split.
      * intros [H | [b' [Hb' Hy]]]; [auto | eauto].
      * intros [H | [b' [[<- | Hb'] [Hy Hne]]]]; [auto | | eauto].
        congruence.
Qed.

Lemma add_themes_NoDup (acc : list string) (data : list Book) :
  NoDup acc -> NoDup (add_themes acc data).
Proof.
  unfold add_themes. revert acc; induction data as [|b data IH]; intros acc Hacc;
    cbn; auto.
  apply IH. destruct (theme b); auto.
  destruct (String.eqb s ""); auto using set_add_NoDup.
Qed.

Variable lc : string -> string -> comparison.

Lemma insert_sorted_perm (x : string) (l : list string) :
  Permutation (insert_sorted lc x l) (x :: l).
Proof.
  induction l as [|y l IH]; cbn; auto.
  destruct (lc x y); auto.
  - rewrite IH. apply perm_swap.
  - rewrite IH. apply perm_swap.
Qed.

Lemma sort_strings_perm_acc (l acc : list string) :
  Permutation (fold_left (fun acc x => insert_sorted lc x acc) l acc) (app l acc).
Proof.
  revert acc; induction l as [|x l IH]; intros acc; cbn; auto.
  rewrite IH, insert_sorted_perm. symmetry. apply Permutation_middle.
Qed.

Lemma sort_strings_perm (l : list string) :
  Permutation (sort_strings lc l) l.
Proof.
  unfold sort_strings. rewrite sort_strings_perm_acc, app_nil_r. reflexivity.
Qed.

Section Sorting.

Hypothesis lc_opp : forall a b, lc b a = CompOpp (lc a b).

Definition lc_le (a b : string) : Prop := lc a b <> Gt.

Lemma insert_sorted_HdRel (y x : string) (r : list string) :
  lc_le y x -> HdRel lc_le y r -> HdRel lc_le y (insert_sorted lc x r).
Proof.
  intros Hyx Hr. destruct r as [|z r]; cbn.
  - constructor; exact Hyx.
  - destruct (lc x z); constructor; auto; eapply HdRel_inv; eauto.
Qed.

Lemma insert_sorted_Sorted (x : string) (l : list string) :
  Sorted lc_le l -> Sorted lc_le (insert_sorted lc x l).
Proof.
  induction l as [|y l IH]; intros Hs; cbn.
  - repeat constructor.
  - apply Sorted_inv in Hs as [Hl Hy].
    destruct (lc x y) eqn:Exy.
    + constructor; [apply IH; auto|].
      apply insert_sorted_HdRel; auto.
      unfold lc_le. rewrite lc_opp, Exy. discriminate.
    + constructor; [constructor; auto | constructor].
      unfold lc_le. rewrite Exy. discriminate.
    + constructor; [apply IH; auto|].
      apply insert_sorted_HdRel; auto.
      unfold lc_le. rewrite lc_opp, Exy. discriminate.
Qed.

Lemma sort_strings_Sorted (l : list string) : Sorted lc_le (sort_strings lc l).
Proof.
  unfold sort_strings.
  assert (forall acc, Sorted lc_le acc ->
            Sorted lc_le (fold_left (fun acc x => insert_sorted lc x acc) l acc))
    as H.
  { induction l as [|x l IH]; intros acc Hacc; cbn; auto.
    apply IH, insert_sorted_Sorted, Hacc. }
  apply H. constructor.
Qed.

End Sorting.

Lemma same_elements_true (next prev : list string) :
  same_elements next prev = true <-> next = prev.
Proof.
  revert prev; induction next as [|a n IH]; intros [|b p]; cbn;
    try (split; congruence).
  rewrite andb_true_iff, String.eqb_eq, IH. split.
  - intros [-> ->]; reflexivity.
  - intros H; injection H as -> ->; auto.
Qed.

End ThemeFacts.

(** ** The queue of pending cache writes *)

Lemma pending_eqb_refl (p : SaveCont * Z) : pending_eqb p p = true.
Proof. destruct p as [[] t]; apply Z.eqb_refl. Qed.

Lemma existsb_pending_last (p : SaveCont * Z) (l : list (SaveCont * Z)) :
  existsb (pending_eqb p) (app l [p]) = true.
Proof.
  rewrite existsb_app. apply orb_true_iff. right. cbn. rewrite pending_eqb_refl. reflexivity.
Qed.

(** A save just registered is found in the queue. *)
Ltac pending_contra :=
  match goal with
  | H : existsb _ _ = false |- _ =>
      cbn [pendingSaves fst snd] in H; rewrite existsb_pending_last in H; discriminate H
  end.

Section Properties.

Variable lc : string -> string -> comparison.

(** Claim C1: when [getBooks] rejects while [hasLocalCacheRef] is set, the
    displayed collection is unchanged and the offline flag becomes true. *)
Theorem fetch_failure_with_cache_keeps_books (w : World) (msg : string) (now : Z)
  (Hcache : hasLocalCacheRef w = true) :
  let '(w', _) := step lc w (GetBooksSettled (Err msg) now) in
  books w' = books w /\ offlineMode w' = true.
Proof.
  destruct w; cbn in Hcache; subst; unfold_world; cbn.
  split_matches; cbn; auto.
Qed.

(** Claim C4: a rejected [getBooks] shows the offline notice exactly when a
    local cache exists and the offline flag is still false; it leaves the
    flag set, so the next rejection shows none. *)
Theorem offline_notice_edge_triggered (w : World) (msg : string) (now : Z) :
  let '(w', outs) := step lc w (GetBooksSettled (Err msg) now) in
  (In (OStatus offlineNotice) outs <->
     hasLocalCacheRef w = true /\ offlineMode w = false) /\
  (hasLocalCacheRef w = true -> offlineMode w' = true) /\
  (forall msg' now',
     hasLocalCacheRef w = true ->
     ~ In (OStatus offlineNotice)
         (snd (step lc w' (GetBooksSettled (Err msg') now')))).
Proof.
  destruct w as [bs ld il st th off ls hc pc cn sb sm ds sto ps].
  unfold_world; cbn.
  destruct hc, off; cbn; repeat split; intros; cbn in *;
    repeat match goal with H : _ /\ _ |- _ => destruct H end;
    try discriminate; intuition (try discriminate).
Qed.

(** Claim C10: a failed toggle-read, toggle-favorite or rate request leaves
    the displayed collection as it was. *)
Theorem update_failure_keeps_books (w : World) (book : Book) (rt : Q)
  (msg : string) (now : Z) :
  books (fst (step lc w (ToggleReadSettled book (Err msg) now))) = books w /\
  books (fst (step lc w (ToggleFavoriteSettled book (Err msg) now))) = books w /\
  books (fst (step lc w (RateSettled book rt (Err msg) now))) = books w.
Proof.
  destruct w; unfold_world; cbn; auto.
Qed.

(** Without a local cache (none loaded at mount and no cache write of this
    screen completed) no last-sync time is set, and the screen shows no
    book unless a fetch has succeeded whose [saveBooksCache] is still
    pending. *)
(** Every world reached by a run of events from a reachable world is
    reachable. *)
Lemma reachable_run (w : World) (es : list Event) :
  reachable lc w -> reachable lc (fst (run lc w es)).
Proof.
  revert w; induction es as [| e es IH]; intros w H; cbn; [exact H |].
  destruct (step lc w e) as [w1 o1] eqn:E1.
  assert (H1 : reachable lc w1).
  { replace w1 with (fst (step lc w e)) by (rewrite E1; reflexivity).
    apply reachable_step, H. }
  specialize (IH w1 H1). destruct (run lc w1 es) as [w2 o2]. exact IH.
Qed.

Lemma no_local_cache_invariant (w : World) :
  reachable lc w -> hasLocalCacheRef w = false ->
  lastSync w = None /\
  (books w = [] \/ exists t, In (LoadBooksSave, t) (pendingSaves w)).
Proof.
  induction 1 as [stored | w e _ IH]; [split; [reflexivity | left; reflexivity] |].
  destruct w as [bs ld il st th off ls hc pc cn sb sm ds sto ps]; cbn in IH.
  destruct e; unfold_world; cbn -[replaceBook]; split_matches; cbn -[replaceBook];
    intros Hc; try discriminate;
    destruct (IH Hc) as [Hl Hb]; (split; [exact Hl |]);
    try (right; eexists; apply in_or_app; right; left; reflexivity);
    destruct Hb as [Hb | [t Ht]];
    solve [left; subst; reflexivity
          | right; exists t; first [exact Ht | apply in_or_app; left; exact Ht]].
Qed.

(** Claim C2 (amended): when [getBooks] rejects and no local cache is
    known, the error is shown in a blocking alert, the offline flag is not
    touched, no offline notice is shown and the displayed collection is
    left as it was: empty, unless a concurrent fetch has succeeded whose
    cache write is still pending. *)
Theorem fetch_failure_without_cache_alerts (w : World) (msg : string) (now : Z)
  (Hreach : reachable lc w) (Hnocache : hasLocalCacheRef w = false) :
  let '(w', outs) := step lc w (GetBooksSettled (Err msg) now) in
  In (OAlert "Erreur" msg) outs /\
  ~ In (OStatus offlineNotice) outs /\
  offlineMode w' = offlineMode w /\
  books w' = books w /\
  (books w' = [] \/ exists t, In (LoadBooksSave, t) (pendingSaves w')).
Proof.
  destruct (no_local_cache_invariant w Hreach Hnocache) as [_ Hbooks].
  destruct w; cbn in *; subst; unfold_world; cbn.
  repeat split; auto; intros [H | H]; [discriminate | exact H].
Qed.

(** Claim C3: an online report while the offline flag is set clears the
    flag and issues exactly one [getBooks]; a further online report issues
    none; when that request succeeds at time [now], the flag stays false,
    the list shows the new data and AsyncStorage holds the new data with
    timestamp [now]; once that cache write settles, these still hold and
    the last sync time is [now]. *)
Theorem online_transition_refetches_once (w : World) (state : NetworkState)
  (Hsub : subscribed w = true) (Hoff : offlineMode w = true)
  (Hon : isOnline state = true) :
  let '(w1, outs) := step lc w (NetworkChange state) in
  outs = [OGetBooks] /\
  offlineMode w1 = false /\
  (forall state', isOnline state' = true ->
     snd (step lc w1 (NetworkChange state')) = []) /\
  (forall data now,
     let '(w2, _) := step lc w1 (GetBooksSettled (Ok data) now) in
     offlineMode w2 = false /\ books w2 = data /\
     storage w2 = Some (mkCachedBookList data now) /\
     (let w3 := fst (step lc w2 (CacheSaved LoadBooksSave now)) in
      offlineMode w3 = false /\ books w3 = data /\
      storage w3 = Some (mkCachedBookList data now) /\
      lastSync w3 = Some now)).
Proof.
  destruct w; cbn in Hsub, Hoff; subst; unfold_world; cbn.
  rewrite Hon; cbn.
  repeat split.
  - intros state' Hon'. rewrite Hon'. reflexivity.
  - intros data now. cbn. split_matches; cbn; repeat split; try reflexivity; pending_contra.
Qed.

(** Claim C8: the network is online exactly when [isConnected] is [true]
    and [isInternetReachable] is not [false] (absent counts as reachable). *)
Theorem isOnline_iff (state : NetworkState) :
  isOnline state = true <->
  isConnected state = Some true /\ isInternetReachable state <> Some false.
Proof.
  destruct state as [[[|]|] [[|]|]]; unfold isOnline; cbn;
    intuition congruence.
Qed.

(** Claim C9: the rate action sends one [updateBook] whose rating is
    [Math.round] of the submitted value clamped to [1, 5], an integer in
    [1, 5]; -3 and 0 give 1, 6 and 5.6 give 5.  The star handler of the
    form computes the same value. *)
Theorem rate_rounds_then_clamps (w : World) (book : Book) (r : Q) :
  snd (step lc w (PressRate book r)) =
    [OUpdateBook (id book) (ratePayload book r)] /\
  p_rating (ratePayload book r) = Some (inject_Z (boundRating r)) /\
  boundRating r = Z.min (Z.max (Qfloor (r + (1 # 2))) 1) 5 /\
  (1 <= boundRating r <= 5)%Z /\
  handleStarPress r = boundRating r /\
  boundRating (-3) = 1%Z /\ boundRating 0 = 1%Z /\
  boundRating 6 = 5%Z /\ boundRating (56 # 10) = 5%Z.
Proof.
  unfold_world; cbn.
  repeat split; try reflexivity; unfold boundRating; lia.
Qed.

Lemma syncThemes_cases (prev : list string) (data : list Book) :
  let next := sort_strings lc (add_themes (set_of prev) data) in
  (syncThemes lc prev data = None /\ next = prev) \/
  syncThemes lc prev data = Some next.
Proof.
  cbv zeta. unfold syncThemes. destruct (same_elements _ _) eqn:E; [left | right]; auto.
  split; [reflexivity | apply same_elements_true, E].
Qed.

(** Claim C7 (amended): a successful fetch, a cache read applied on the
    mounted screen, and a successful update (toggle-read, toggle-favorite,
    rate) set the theme list to the locale-sorted, duplicate-free union of
    the themes already known and the non-empty themes of the resulting
    collection; the state write is skipped exactly when that list equals
    the previous one. *)
Theorem themes_union_sorted
  (lc_opp : forall a b, lc b a = CompOpp (lc a b))
  (w : World) (data : list Book) (book updated : Book) (rt : Q) (now : Z) :
  let prev := availableThemes w in
  let next := sort_strings lc (add_themes (set_of prev) data) in
  (forall x, In x next <->
     In x prev \/ exists b, In b data /\ theme b = Some x /\ x <> "") /\
  NoDup next /\
  Sorted (lc_le lc) next /\
  (syncThemes lc prev data = None <-> next = prev) /\
  availableThemes (fst (step lc w (GetBooksSettled (Ok data) now))) = next /\
  availableThemes (fst (step lc w (ToggleReadSettled book (Ok updated) now))) =
    sort_strings lc
      (add_themes (set_of prev) (replaceBook (id book) updated (books w))) /\
  availableThemes (fst (step lc w (ToggleFavoriteSettled book (Ok updated) now))) =
    sort_strings lc
      (add_themes (set_of prev) (replaceBook (id book) updated (books w))) /\
  availableThemes (fst (step lc w (RateSettled book rt (Ok updated) now))) =
    sort_strings lc
      (add_themes (set_of prev) (replaceBook (id book) updated (books w))) /\
  (forall c, pendingCache w = Some (Some c) -> canceled w = false ->
     availableThemes (fst (step lc w CacheLoadSettled)) =
       sort_strings lc (add_themes (set_of prev) (cached_books c))).
Proof.
  cbv zeta. split; [intros x; split | split; [| split; [| split; [split |]]]].
  - intros H. eapply Permutation_in in H; [| apply sort_strings_perm].
    apply add_themes_In in H. destruct H as [H | H]; [left | right; exact H].
    apply fold_set_add_In in H. destruct H as [[] | H]; exact H.
  - intros H. eapply Permutation_in; [symmetry; apply sort_strings_perm |].
    apply add_themes_In. destruct H as [H | H]; [left | right; exact H].
    apply fold_set_add_In. right; exact H.
  - eapply Permutation_NoDup; [symmetry; apply sort_strings_perm|].
    apply add_themes_NoDup, fold_set_add_NoDup. constructor.
  - apply sort_strings_Sorted, lc_opp.
  - unfold syncThemes. destruct (same_elements _ _) eqn:E; [|discriminate].
    intros _. apply same_elements_true, E.
  - unfold syncThemes. intros ->.
    rewrite (proj2 (same_elements_true _ _) eq_refl). reflexivity.
  - refine (conj _ (conj _ (conj _ (conj _ _)))).
    + destruct w; unfold_world; cbn.
      destruct (syncThemes_cases availableThemes0 data) as [[E Hn] | E]; rewrite E; cbn; auto.
    + destruct w; unfold_world; cbn -[replaceBook].
      destruct (syncThemes_cases availableThemes0 (replaceBook (id book) updated books0))
        as [[E Hn] | E]; rewrite E; cbn; auto.
    + destruct w; unfold_world; cbn -[replaceBook].
      destruct (syncThemes_cases availableThemes0 (replaceBook (id book) updated books0))
        as [[E Hn] | E]; rewrite E; cbn; auto.
    + destruct w; unfold_world; cbn -[replaceBook].
      destruct (syncThemes_cases availableThemes0 (replaceBook (id book) updated books0))
        as [[E Hn] | E]; rewrite E; cbn; auto.
    + intros c Hp Hc. destruct w; cbn in Hp, Hc; subst; unfold_world; cbn.
      destruct (syncThemes_cases availableThemes0 (cached_books c))
        as [[E Hn] | E]; rewrite E; cbn; auto.
Qed.

(** Claim C5 (amended): when the mount-time [loadBooksCache()] settles
    with a snapshot while the screen is mounted, the displayed collection
    becomes the snapshot's books, whatever a live fetch set before; after
    unmount the snapshot is dropped. *)
Theorem cache_read_replaces_books (w : World) (c : CachedBookList)
  (Hpending : pendingCache w = Some (Some c)) :
  books (fst (step lc w CacheLoadSettled)) =
    if canceled w then books w else cached_books c.
Proof.
  destruct w; cbn in Hpending; subst; unfold_world; cbn.
  split_matches; cbn; reflexivity.
Qed.

(** Claim C6 (amended): the list-screen updates (toggle-read,
    toggle-favorite, rate) issue their request whatever the offline flag;
    on failure the flag is set and the error alerted, on success the flag
    is cleared and the updated collection is written to AsyncStorage.
    Create and delete, on their own screens, issue their request
    ([createBook], [deleteBook]) and alert the error on failure, but leave
    the offline flag and the cached snapshot as they are. *)
Theorem update_mutations_reconcile_offline (w : World) (book : Book) (rt : Q)
  (r : result Book) (now : Z) :
  (forall e, In e [PressToggleRead book; PressToggleFavorite book; PressRate book rt] ->
     exists p, step lc w e = (w, [OUpdateBook (id book) p])) /\
  (forall e,
     In e [ToggleReadSettled book r now; ToggleFavoriteSettled book r now;
           RateSettled book rt r now] ->
     let '(w', outs) := step lc w e in
     match r with
     | Err m => offlineMode w' = true /\ In (OAlert "Erreur" m) outs
     | Ok updated =>
         offlineMode w' = false /\
         storage w' =
           Some (mkCachedBookList (replaceBook (id book) updated (books w)) now)
     end) /\
  (forall e,
     (exists v, e = SubmitNew v) \/ (exists r', e = CreateSettled r') \/
     e = ConfirmDelete book \/ (exists r', e = DeleteSettled book r') ->
     offlineMode (fst (step lc w e)) = offlineMode w /\
     storage (fst (step lc w e)) = storage w) /\
  (forall v, snd (step lc w (SubmitNew v)) = [OCreateBook v]) /\
  snd (step lc w (ConfirmDelete book)) = [ODeleteBook (id book)] /\
  (forall m, In (OAlert "Erreur" m) (snd (step lc w (CreateSettled (Err m))))) /\
  (forall m, In (OAlert "Erreur" m) (snd (step lc w (DeleteSettled book (Err m))))).
Proof.
  split; [| split; [| split]].
  - intros e He. destruct w.
    destruct He as [<- | [<- | [<- | []]]]; unfold_world; cbn; eauto.
  - intros e He. destruct w.
    destruct He as [<- | [<- | [<- | []]]]; unfold_world; cbn -[replaceBook];
      destruct r; cbn -[replaceBook]; split_matches; cbn; auto.
  - intros e He. destruct w.
    destruct He as [[v ->] | [[r' ->] | [-> | [r' ->]]]]; unfold_world; cbn;
      split_matches; cbn; auto.
  - destruct w; unfold_world; cbn.
    repeat split; intros; cbn; auto.
Qed.

End Properties.

(* ------------------------------------------------------------------ *)
(** ** Concrete runs *)

Lemma fetch_failure_with_cache_keeps_books_witness :
  hasLocalCacheRef worldWithCache = true /\
  (let '(w', _) := step String.compare worldWithCache
                     (GetBooksSettled (Err "Network request failed") 2) in
   books w' = books worldWithCache /\ offlineMode w' = true).
Proof.
  split; [vm_compute; reflexivity |].
  apply (fetch_failure_with_cache_keeps_books String.compare worldWithCache
           "Network request failed" 2).
  vm_compute; reflexivity.
Defined.

Lemma fetch_failure_without_cache_alerts_witness :
  reachable String.compare worldMountedNoCache /\
  hasLocalCacheRef worldMountedNoCache = false /\
  (let '(w', outs) := step String.compare worldMountedNoCache
                        (GetBooksSettled (Err "Network request failed") 2) in
   In (OAlert "Erreur" "Network request failed") outs /\
   ~ In (OStatus offlineNotice) outs /\
   offlineMode w' = offlineMode worldMountedNoCache /\
   books w' = books worldMountedNoCache /\
   (books w' = [] \/ exists t, In (LoadBooksSave, t) (pendingSaves w'))).
Proof.
  assert (Hr : reachable String.compare worldMountedNoCache).
  { apply reachable_step, reachable_init. }
  assert (Hc : hasLocalCacheRef worldMountedNoCache = false)
    by (vm_compute; reflexivity).
  split; [exact Hr | split; [exact Hc |]].
  exact (fetch_failure_without_cache_alerts String.compare worldMountedNoCache
           "Network request failed" 2 Hr Hc).
Defined.

Lemma online_transition_refetches_once_witness :
  subscribed worldOffline = true /\ offlineMode worldOffline = true /\
  isOnline connected = true /\
  (let '(w1, outs) := step String.compare worldOffline (NetworkChange connected) in
   outs = [OGetBooks] /\
   offlineMode w1 = false /\
   (forall state', isOnline state' = true ->
      snd (step String.compare w1 (NetworkChange state')) = []) /\
   (forall data now,
      let '(w2, _) := step String.compare w1 (GetBooksSettled (Ok data) now) in
      offlineMode w2 = false /\ books w2 = data /\
      storage w2 = Some (mkCachedBookList data now) /\
      (let w3 := fst (step String.compare w2 (CacheSaved LoadBooksSave now)) in
       offlineMode w3 = false /\ books w3 = data /\
       storage w3 = Some (mkCachedBookList data now) /\ lastSync w3 = Some now))).
Proof.
  assert (Hs : subscribed worldOffline = true) by (vm_compute; reflexivity).
  assert (Ho : offlineMode worldOffline = true) by (vm_compute; reflexivity).
  assert (Hn : isOnline connected = true) by reflexivity.
  split; [exact Hs | split; [exact Ho | split; [exact Hn |]]].
  exact (online_transition_refetches_once String.compare worldOffline connected
           Hs Ho Hn).
Defined.

Lemma cache_read_replaces_books_witness :
  pendingCache worldAfterLiveFetch = Some (Some oldSnapshot) /\
  books (fst (step String.compare worldAfterLiveFetch CacheLoadSettled)) =
    (if canceled worldAfterLiveFetch then books worldAfterLiveFetch
     else cached_books oldSnapshot).
Proof.
  assert (Hp : pendingCache worldAfterLiveFetch = Some (Some oldSnapshot))
    by (vm_compute; reflexivity).
  split; [exact Hp |].
  exact (cache_read_replaces_books String.compare worldAfterLiveFetch oldSnapshot Hp).
Defined.

Lemma themes_union_sorted_witness :
  (forall a b, String.compare b a = CompOpp (String.compare a b)) /\
  availableThemes
    (fst (step String.compare worldWithCache (GetBooksSettled (Ok freshBooks) 5))) =
  sort_strings String.compare
    (add_themes (set_of (availableThemes worldWithCache)) freshBooks).
Proof.
  assert (Hopp : forall a b, String.compare b a = CompOpp (String.compare a b)).
  { intros a b. apply String.compare_antisym. }
  split; [exact Hopp |].
  exact (proj1 (proj2 (proj2 (proj2 (proj2
           (themes_union_sorted String.compare Hopp worldWithCache freshBooks
              (sampleBook "1" "Roman") (sampleBook "1" "Roman") 0 5)))))).
Defined.

(** Claim C5 fails: with a snapshot from an earlier session in AsyncStorage,
    the live fetch settles first and sets the list to the fresh data; the
    cache read settling afterwards puts the old snapshot back. *)
Lemma late_cache_read_overwrites_live_result :
  books worldAfterLiveFetch = freshBooks /\
  books (fst (step String.compare worldAfterLiveFetch CacheLoadSettled)) =
    cached_books oldSnapshot /\
  cached_books oldSnapshot <> freshBooks.
Proof.
  split; [vm_compute; reflexivity | split; [vm_compute; reflexivity |]].
  vm_compute. discriminate.
Qed.

(** Claim C2 fails: with no cache, a fetch fails while the data of a
    concurrent successful fetch are shown and their cache write is still
    pending; the error is alerted and the list stays non-empty. *)
Lemma concurrent_fetch_failure_shows_books :
  hasLocalCacheRef worldFetchSavePending = false /\
  (let '(w', outs) := step String.compare worldFetchSavePending
                        (GetBooksSettled (Err "Network request failed") 6) in
   In (OAlert "Erreur" "Network request failed") outs /\
   offlineMode w' = false /\ books w' = freshBooks /\ books w' <> []).
Proof.
  vm_compute. split; [reflexivity |]. repeat split; auto. discriminate.
Qed.

(** Claim C6 fails: a successful create while the list screen is offline
    leaves its offline flag set and AsyncStorage untouched. *)
Lemma create_success_leaves_offline_flag :
  offlineMode worldOffline = true /\
  (let '(w', outs) := run String.compare worldOffline
                        [SubmitNew samplePayload; CreateSettled (Ok (sampleBook "3" "Essai"))] in
   In (OCreateBook samplePayload) outs /\
   offlineMode w' = true /\ storage w' = storage worldOffline).
Proof.
  vm_compute. repeat split; auto.
Qed.

(** Claim C7 fails: after the cached "Roman" book has been shown, a fetch
    returning only an "Essai" book leaves "Roman" in the theme list. *)
Lemma fetch_keeps_themes_absent_from_collection :
  let w := fst (step String.compare worldWithCache (GetBooksSettled (Ok freshBooks) 5)) in
  books w = freshBooks /\
  availableThemes w = ["Essai"; "Roman"] /\
  ~ (exists b, In b (books w) /\ theme b = Some "Roman").
Proof.
  vm_compute. split; [reflexivity | split; [reflexivity |]].
  intros [b [[<- | []] H]]. discriminate.
Qed.

(* ------------------------------------------------------------------ *)
(** ** The request layer *)

Lemma requestFailedMessage_truthy (st : Z) :
  jtruthy (JStr (requestFailedMessage st)) = true.
Proof. reflexivity. Qed.

(** [request]: a network failure rejects with the [fetch] error; a non-2xx
    response rejects with a truthy message, the body's [message] when it
    is truthy and otherwise the status fallback; a 2xx response of a call
    that expects no body resolves to [undefined] whatever the body.
    Precisely: a truthy [message] of the body is the rejection message, and
    a body that does not parse, or has no truthy [message], gives the
    status fallback. *)
Theorem request_outcomes :
  (forall expectsBody, request NetworkFailure expectsBody = inr ENetwork) /\
  (forall st body expectsBody,
     exists m, request (Response false st body) expectsBody = inr (EHttp m) /\
       jtruthy m = true /\
       (m = JStr (requestFailedMessage st) \/
        exists v, body = Some v /\ jget v "message" = Some m)) /\
  (forall st body, request (Response true st body) false = inl None) /\
  (forall st v m expectsBody,
     jget v "message" = Some m -> jtruthy m = true ->
     request (Response false st (Some v)) expectsBody = inr (EHttp m)) /\
  (forall st body expectsBody,
     (forall v m, body = Some v -> jget v "message" = Some m -> jtruthy m = false) ->
     request (Response false st body) expectsBody =
       inr (EHttp (JStr (requestFailedMessage st)))).
Proof.
  split; [reflexivity | split; [| split; [reflexivity | split]]].
  3: { intros st body expectsBody H. cbn. unfold safeParseError.
       destruct body as [v |]; [| reflexivity].
       destruct (jget v "message") as [m |] eqn:E; [| reflexivity].
       rewrite (H v m eq_refl E). reflexivity. }
  2: { intros st v m expectsBody E T. cbn. unfold safeParseError.
       rewrite E, T. reflexivity. }
  intros st body expectsBody. exists (safeParseError st body).
  split; [reflexivity |].
  unfold safeParseError.
  destruct body as [v |]; [| auto].
  destruct (jget v "message") as [m |] eqn:E; [| auto].
  destruct (jtruthy m) eqn:T; [| auto].
  split; [exact T | right; eauto].
Qed.

(* ------------------------------------------------------------------ *)
(** ** [buildQuery] *)

Lemma string_app_assoc (a b c : string) : (a ++ b) ++ c = a ++ (b ++ c).
Proof. induction a; cbn; [reflexivity | now rewrite IHa]. Qed.

Lemma hasChar_app (x : ascii) (a b : string) :
  hasChar x (a ++ b) = hasChar x a || hasChar x b.
Proof. induction a as [| c a IH]; cbn; [reflexivity |]. destruct (ascii_dec c x); auto. Qed.

Lemma encodeByte_decode (c : ascii) (rest : string) :
  formDecode (encodeByte c ++ rest) = String c (formDecode rest).
Proof.
  destruct c as [b0 b1 b2 b3 b4 b5 b6 b7].
  destruct b0, b1, b2, b3, b4, b5, b6, b7; reflexivity.
Qed.

Lemma encodeByte_no_separator (c : ascii) :
  hasChar "&" (encodeByte c) = false /\ hasChar "=" (encodeByte c) = false.
Proof.
  destruct c as [b0 b1 b2 b3 b4 b5 b6 b7].
  destruct b0, b1, b2, b3, b4, b5, b6, b7; split; reflexivity.
Qed.

Lemma formEncode_decode_app (s rest : string) :
  formDecode (formEncode s ++ rest) = s ++ formDecode rest.
Proof.
  induction s as [| c s IH]; cbn; [reflexivity |].
  rewrite string_app_assoc, encodeByte_decode, IH. reflexivity.
Qed.

Lemma string_app_empty (a : string) : a ++ "" = a.
Proof. induction a; cbn; [reflexivity | now rewrite IHa]. Qed.

Lemma formEncode_decode (s : string) : formDecode (formEncode s) = s.
Proof.
  rewrite <- (string_app_empty (formEncode s)).
  rewrite formEncode_decode_app. apply string_app_empty.
Qed.

Lemma formEncode_no_separator (s : string) :
  hasChar "&" (formEncode s) = false /\ hasChar "=" (formEncode s) = false.
Proof.
  induction s as [| c s [IHa IHe]]; cbn; [split; reflexivity |].
  destruct (encodeByte_no_separator c) as [Ea Ee].
  rewrite !hasChar_app, Ea, Ee, IHa, IHe. split; reflexivity.
Qed.

Lemma splitOn_app (sep : ascii) (a b : string) :
  hasChar sep a = false -> splitOn sep (a ++ String sep b) = a :: splitOn sep b.
Proof.
  induction a as [| c a IH]; cbn; intros H.
  - destruct (ascii_dec sep sep); [reflexivity | congruence].
  - destruct (ascii_dec c sep); [discriminate |]. rewrite (IH H). reflexivity.
Qed.

Lemma splitOn_none (sep : ascii) (a : string) :
  hasChar sep a = false -> splitOn sep a = [a].
Proof.
  induction a as [| c a IH]; cbn; intros H; [reflexivity |].
  destruct (ascii_dec c sep); [discriminate |]. rewrite (IH H). reflexivity.
Qed.

Lemma breakAt_app (sep : ascii) (a b : string) :
  hasChar sep a = false -> breakAt sep (a ++ String sep b) = (a, b).
Proof.
  induction a as [| c a IH]; cbn; intros H.
  - destruct (ascii_dec sep sep); [reflexivity | congruence].
  - destruct (ascii_dec c sep); [discriminate |]. rewrite (IH H). reflexivity.
Qed.

Lemma encodePair_no_amp (kv : string * string) : hasChar "&" (encodePair kv) = false.
Proof.
  destruct kv as [k v]. unfold encodePair; cbn.
  destruct (formEncode_no_separator k) as [Hk _].
  destruct (formEncode_no_separator v) as [Hv _].
  rewrite hasChar_app, Hk; cbn. exact Hv.
Qed.

Lemma splitOn_serializeParams (pairs : list (string * string)) :
  pairs <> [] -> splitOn "&" (serializeParams pairs) = map encodePair pairs.
Proof.
  induction pairs as [| [k v] rest IH]; intros Hne; [congruence |].
  destruct rest as [| kv' rest'].
  - cbn [serializeParams map]. apply splitOn_none, (encodePair_no_amp (k, v)).
  - change (serializeParams ((k, v) :: kv' :: rest'))
      with (formEncode k ++ "=" ++ formEncode v ++ "&" ++ serializeParams (kv' :: rest')).
    change ("=" ++ formEncode v ++ "&" ++ serializeParams (kv' :: rest'))
      with (String "=" (formEncode v ++ String "&" (serializeParams (kv' :: rest')))).
    change (String "=" (formEncode v ++ String "&" (serializeParams (kv' :: rest'))))
      with ((String "=" (formEncode v)) ++ String "&" (serializeParams (kv' :: rest'))).
    rewrite <- string_app_assoc, splitOn_app.
    + rewrite IH by discriminate. reflexivity.
    + apply (encodePair_no_amp (k, v)).
Qed.

Lemma serializeParams_empty (pairs : list (string * string)) :
  String.eqb (serializeParams pairs) "" = true -> pairs = [].
Proof.
  destruct pairs as [| [k v] rest]; [reflexivity |].
  intros H. apply String.eqb_eq in H. exfalso.
  assert (hasChar "=" (serializeParams ((k, v) :: rest)) = true) as Hc.
  { destruct rest as [| kv' rest']; cbn [serializeParams];
      rewrite hasChar_app; apply orb_true_iff; right; cbn; reflexivity. }
  rewrite H in Hc. discriminate.
Qed.

(** [buildQuery] writes exactly the pairs it sets: reading the query
    string back ([+] as space, [%XY] as a byte, pairs split at [&] and
    at their first [=]) gives the [query.set] pairs in order, whatever
    bytes the search text or theme contain. *)
Theorem buildQuery_roundtrip (params : GetBooksParams) :
  decodeQuery (buildQuery (Some params)) = queryPairs params.
Proof.
  unfold buildQuery.
  destruct (String.eqb (serializeParams (queryPairs params)) "") eqn:E.
  - rewrite (serializeParams_empty _ E). reflexivity.
  - assert (Hne : queryPairs params <> []).
    { intros Hn. rewrite Hn in E. discriminate. }
    cbn [append decodeQuery].
    destruct (ascii_dec "?" "?") as [_ | n]; [| congruence].
    rewrite (splitOn_serializeParams _ Hne), map_map.
    rewrite <- (map_id (queryPairs params)) at 2.
    apply map_ext. intros [k v]. unfold encodePair; cbn [fst snd].
    destruct (formEncode_no_separator k) as [_ Hk].
    change ("=" ++ formEncode v) with (String "=" (formEncode v)).
    rewrite breakAt_app by exact Hk.
    rewrite !formEncode_decode. reflexivity.
Qed.

(** [buildQuery] gives the empty string for missing params, and for
    params exactly when no field is set: no truthy [query] or [theme], no
    boolean [read] or [favorite], no [sort], no [order]. *)
Theorem buildQuery_empty :
  buildQuery None = "" /\
  (forall params,
     buildQuery (Some params) = "" <->
     jsTruthyString (gp_query params) = None /\ gp_read params = None /\
     gp_favorite params = None /\ jsTruthyString (gp_theme params) = None /\
     gp_sort params = None /\ gp_order params = None).
Proof.
  split; [reflexivity |]. intros params. unfold buildQuery.
  destruct (String.eqb (serializeParams (queryPairs params)) "") eqn:E.
  - apply serializeParams_empty in E. unfold queryPairs in E.
    split; [intros _ | reflexivity].
    destruct (jsTruthyString (gp_query params)), (gp_read params), (gp_favorite params),
      (jsTruthyString (gp_theme params)), (gp_sort params), (gp_order params);
      cbn in E; try discriminate; repeat split.
  - split; [discriminate |].
    intros (H1 & H2 & H3 & H4 & H5 & H6).
    unfold queryPairs in E. rewrite H1, H2, H3, H4, H5, H6 in E. discriminate.
Qed.

(* ------------------------------------------------------------------ *)
(** ** The AsyncStorage cache payload *)

(** What [saveBooksCache] writes, [loadBooksCache] reads back: the same
    [books] array and the stored [savedAt], whatever the time of the read. *)
Theorem cache_payload_roundtrip (items : list Json) (savedAt now : Z) :
  loadBooksCacheJson (ReadText (Some (cachePayload items savedAt))) now =
  Some (items, inject_Z savedAt).
Proof. reflexivity. Qed.

(** [loadBooksCache] yields a cache only from a stored text that parses to
    a JSON object whose [books] is an array, and then returns that array:
    a read failure, a missing or empty entry, a corrupt text, [null], a
    bare array or an object without a [books] array all read as no cache. *)
Theorem cache_load_requires_books_array (r : StorageRead) (now : Z)
  (items : list Json) (savedAt : Q) :
  loadBooksCacheJson r now = Some (items, savedAt) ->
  exists fields, r = ReadText (Some (JObj fields)) /\
    jget (JObj fields) "books" = Some (JArr items).
Proof.
  destruct r as [| | | [parsed |]]; cbn; try discriminate.
  destruct (jtruthy parsed); cbn; [| discriminate].
  destruct parsed as [| | | | | fields]; cbn; try discriminate.
  destruct (fold_left _ fields None) as [[| | | | items' |] |] eqn:E; try discriminate.
  intros H. injection H as <- _. exists fields. split; [reflexivity |]. exact E.
Qed.

(* ------------------------------------------------------------------ *)
(** ** OpenLibrary *)

Lemma findEditionCount_app (pre rest : list Json) :
  Forall (fun d => d <> JNull /\ forall q, jget d "edition_count" <> Some (JNum q)) pre ->
  findEditionCount (pre ++ rest) = findEditionCount rest.
Proof.
  induction 1 as [| d pre [Hn Hc] _ IH]; [reflexivity |].
  cbn [app findEditionCount].
  destruct d; try congruence;
    destruct (jget _ "edition_count") as [[] |] eqn:E; try exact IH;
    exfalso; eapply Hc; first [exact E | reflexivity].
Qed.

(** [encodeURIComponent] on sample titles: "Dune é", an emoji given as a
    surrogate pair, a lone lead and a reversed pair. *)
Example encodeURIComponent_samples :
  encodeURIComponent [68; 117; 110; 101; 32; 233]%Z = Some "Dune%20%C3%A9" /\
  encodeURIComponent [55357; 56832]%Z = Some "%F0%9F%98%80" /\
  encodeURIComponent [55357]%Z = None /\
  encodeURIComponent [56832; 55357]%Z = None.
Proof. vm_compute. repeat split. Qed.

Lemma uriUnreserved_not_surrogate (c : Z) :
  uriUnreserved c = true -> isLeadSurrogate c = false /\ isTrailSurrogate c = false.
Proof.
  unfold uriUnreserved, isLeadSurrogate, isTrailSurrogate. intros H.
  assert (Hc : (c <= 126)%Z).
  { apply orb_true_iff in H as [H | H].
    - repeat (apply orb_true_iff in H as [H | H]); apply andb_true_iff in H as [_ H];
        apply Z.leb_le in H; lia.
    - apply existsb_exists in H as [x [Hx E]]. apply Z.eqb_eq in E. subst x.
      cbn in Hx. repeat destruct Hx as [<- | Hx]; lia. }
  split; apply andb_false_iff; left; apply Z.leb_gt; lia.
Qed.

Lemma lead_not_trail (c : Z) : isLeadSurrogate c = true -> isTrailSurrogate c = false.
Proof.
  unfold isLeadSurrogate, isTrailSurrogate. intros H.
  apply andb_true_iff in H as [_ H]. apply Z.leb_le in H.
  apply andb_false_iff; left; apply Z.leb_gt; lia.
Qed.

Lemma option_map_Some {A B} (f : A -> B) (o : option A) (y : B) :
  option_map f o = Some y -> exists x, o = Some x.
Proof. destruct o; cbn; [eauto | discriminate]. Qed.

(** [encodeURIComponent] succeeds exactly on well-formed UTF-16. *)
Lemma encodeURIComponent_defined (s : list Z) :
  (exists q, encodeURIComponent s = Some q) <-> WellFormedUtf16 s.
Proof.
  split.
  - intros [q E].
    assert (Hn : exists n, (length s <= n)%nat) by (exists (length s); lia).
    destruct Hn as [n Hn]. revert s q E Hn.
    induction n as [| n IH]; intros s q E Hn.
    + destruct s; [constructor | cbn in Hn; lia].
    + destruct s as [| c rest]; [constructor |]. cbn in Hn. cbn in E.
      destruct (uriUnreserved c) eqn:U.
      * destruct (uriUnreserved_not_surrogate c U) as [L T].
        apply option_map_Some in E as [q' E].
        apply wf_unit; [exact L | exact T | eapply IH; [exact E | lia]].
      * destruct (isTrailSurrogate c) eqn:T; [discriminate |].
        destruct (isLeadSurrogate c) eqn:L.
        -- destruct rest as [| d rest']; [discriminate |].
           destruct (isTrailSurrogate d) eqn:Td; [| discriminate].
           apply option_map_Some in E as [q' E].
           apply wf_pair; [exact L | exact Td | eapply IH; [exact E | cbn in Hn; lia]].
        -- apply option_map_Some in E as [q' E].
           apply wf_unit; [exact L | exact T | eapply IH; [exact E | lia]].
  - induction 1 as [| c s L T _ [q IH] | c d s L Td _ [q IH]].
    + eexists; reflexivity.
    + cbn. rewrite T, L, IH. destruct (uriUnreserved c); eexists; reflexivity.
    + cbn. destruct (uriUnreserved c) eqn:U.
      { destruct (uriUnreserved_not_surrogate c U) as [L' _]. congruence. }
      rewrite (lead_not_trail c L), L, Td, IH. eexists; reflexivity.
Qed.

(** [fetchEditionCountByTitle] scans [docs] in order. For a well-formed
    title (for any other, [encodeURIComponent] throws before any response
    exists), past docs without a numeric [edition_count], it returns the
    first numeric [edition_count]; a [null] doc met first makes it fail;
    with no such doc it falls back to a numeric [numFound], else [null]. *)
Theorem fetchEditionCount_scan (title : list Z) (Htitle : WellFormedUtf16 title)
  (st : Z) (data : Json) (pre rest : list Json)
  (Hpre : Forall (fun d => d <> JNull /\ forall q, jget d "edition_count" <> Some (JNum q)) pre)
  (Hdocs : jget data "docs" = Some (JArr (pre ++ rest))) :
  let result := fetchEditionCountByTitle title (Response true st (Some data)) in
  (forall doc q post, rest = doc :: post ->
     jget doc "edition_count" = Some (JNum q) -> result = inl (Some q)) /\
  (forall post, rest = JNull :: post -> result = inr (TError openLibraryError)) /\
  (rest = [] ->
     result = inl (match jget data "numFound" with Some (JNum q) => Some q | _ => None end)).
Proof.
  assert (Hdata : exists fields, data = JObj fields)
    by (destruct data; cbn in Hdocs; try discriminate; eauto).
  destruct Hdata as [fields ->].
  apply encodeURIComponent_defined in Htitle as [query Hq].
  cbn zeta. unfold fetchEditionCountByTitle. rewrite Hq. cbn [negb]. rewrite Hdocs.
  rewrite (findEditionCount_app pre rest Hpre).
  split; [| split].
  - intros doc q post -> Hc.
    destruct doc; try (cbn in Hc; discriminate);
      cbn [findEditionCount]; rewrite Hc; reflexivity.
  - intros post ->. reflexivity.
  - intros ->. cbn [findEditionCount].
    destruct (jget (JObj fields) "numFound") as [[] |]; reflexivity.
Qed.

(** [fetchEditionCountByTitle] rejects with a [URIError], whatever the
    network would give, exactly when the title is not well-formed UTF-16.
    For a well-formed title it fails with the single generic message on a
    network failure, on a non-2xx response, and on a body that is not JSON
    or is [null]; it never rejects with anything else. *)
Theorem fetchEditionCount_failures :
  (forall title, WellFormedUtf16 title ->
     fetchEditionCountByTitle title NetworkFailure = inr (TError openLibraryError) /\
     (forall st body, fetchEditionCountByTitle title (Response false st body) =
                        inr (TError openLibraryError)) /\
     (forall st, fetchEditionCountByTitle title (Response true st None) =
                   inr (TError openLibraryError)) /\
     (forall st, fetchEditionCountByTitle title (Response true st (Some JNull)) =
                   inr (TError openLibraryError))) /\
  (forall title o, ~ WellFormedUtf16 title -> fetchEditionCountByTitle title o = inr TURIError) /\
  (forall title o err, fetchEditionCountByTitle title o = inr err ->
     err = TError openLibraryError \/ (err = TURIError /\ ~ WellFormedUtf16 title)).
Proof.
  split; [| split].
  - intros title H. apply encodeURIComponent_defined in H as [q E].
    unfold fetchEditionCountByTitle. rewrite E.
    split; [reflexivity | split; [reflexivity | split; reflexivity]].
  - intros title o H. unfold fetchEditionCountByTitle.
    destruct (encodeURIComponent title) eqn:E; [| reflexivity].
    exfalso. apply H, encodeURIComponent_defined. eauto.
  - intros title o err. unfold fetchEditionCountByTitle.
    destruct (encodeURIComponent title) eqn:E.
    2: { intros Herr. injection Herr as <-. right. split; [reflexivity |].
         intros H. apply encodeURIComponent_defined in H as [q Hq]. congruence. }
    intros Herr. left. revert Herr. destruct o as [| [] st [data |]]; cbn; try congruence.
    destruct data; try congruence;
      repeat match goal with
             | |- context [match ?x with _ => _ end] => destruct x
             end; congruence.
Qed.

(* ------------------------------------------------------------------ *)
(** ** Notes *)

Lemma string_of_Z_inj (a b : Z) : string_of_Z a = string_of_Z b -> a = b.
Proof.
  unfold string_of_Z. intros H.
  apply DecimalZ.to_int_inj.
  apply (f_equal NilEmpty.int_of_string) in H.
  rewrite !NilEmpty.isi in H. congruence.
Qed.

(** [mapNote] keeps the content and date and loses no information: two
    note responses that map to the same [Note] are equal, so distinct
    integer ids give distinct string ids. *)
Theorem mapNote_injective (a b : NoteResponse) :
  mapNote a = mapNote b -> a = b.
Proof.
  destruct a as [i1 b1 c1 d1], b as [i2 b2 c2 d2]. unfold mapNote; cbn.
  intros H. injection H as Hi Hb -> ->.
  apply string_of_Z_inj in Hi, Hb. subst. reflexivity.
Qed.

(* ------------------------------------------------------------------ *)
(** ** The list screen: lifecycle, requests and updates *)

Section ControllerFacts.

Variable lc : string -> string -> comparison.

(** After unmount, the network callbacks and a late cache read change
    nothing that is shown: the listener and the mount-time network check
    are no-ops, and the cache read leaves the list, the offline flag and
    the last-sync time as they were, with no output. *)
Theorem unmount_silences_callbacks (w : World) (s : NetworkState) :
  let w1 := fst (step lc w Unmount) in
  step lc w1 (NetworkChange s) = (w1, []) /\
  step lc w1 (NetworkStateSettled s) = (w1, []) /\
  (let '(w2, outs) := step lc w1 CacheLoadSettled in
   books w2 = books w1 /\ offlineMode w2 = offlineMode w1 /\
   lastSync w2 = lastSync w1 /\ outs = []).
Proof.
  destruct w. unfold_world; cbn.
  split; [reflexivity | split; [reflexivity |]].
  split_matches; cbn; auto.
Qed.

(** The list screen never polls: a [getBooks] request is issued only on
    mount, on focus, or when the subscribed listener reports the network
    online while the offline flag is set. *)
Theorem getBooks_only_on_mount_focus_reconnect (w : World) (e : Event)
  (H : In OGetBooks (snd (step lc w e))) :
  e = Mount \/ e = Focus \/
  exists s, e = NetworkChange s /\ subscribed w = true /\
    isOnline s = true /\ offlineMode w = true.
Proof.
  destruct w as [bs ld il st th off ls hc pc cn sb sm ds sto ps].
  destruct e; unfold_world; cbn -[replaceBook] in H; auto; split_matches_in H;
    try solve [exfalso; repeat (destruct H as [H | H]; [discriminate |]); exact H].
  right; right. eexists; split; [reflexivity |]; cbn; auto.
Qed.

(** The offline notice comes only from a failed fetch, and only when a
    local cache exists and the flag was not yet set: no other event, and
    no status message of an update, ever shows it. *)
Theorem offline_notice_only_from_failed_fetch (w : World) (e : Event)
  (H : In (OStatus offlineNotice) (snd (step lc w e))) :
  exists msg now, e = GetBooksSettled (Err msg) now /\
    hasLocalCacheRef w = true /\ offlineMode w = false.
Proof.
  destruct w as [bs ld il st th off ls hc pc cn sb sm ds sto ps].
  destruct e; unfold_world; cbn -[offlineNotice replaceBook] in H; split_matches_in H;
    repeat match type of H with
           | _ \/ _ => destruct H as [H | H]
           end;
    try discriminate; try contradiction;
    try (injection H; unfold offlineNotice; intros E; discriminate E);
    try (injection H; unfold offlineNotice; intros E;
         destruct (truthy _); discriminate E).
  do 2 eexists; cbn. split; [reflexivity | split; [reflexivity |]].
  destruct off; [discriminate | reflexivity].
Qed.

(** Every settled fetch ends both loading states: a failed one at once
    (its [finally]); a successful one when its [await saveBooksCache(data)]
    resumes, the [finally] running after the cache write. *)
Theorem fetch_settled_clears_loading (w : World) (r : result (list Book)) (now : Z) :
  let w' := fst (step lc w (GetBooksSettled r now)) in
  match r with
  | Err _ => loading w' = false /\ initialLoading w' = false
  | Ok _ =>
      let w'' := fst (step lc w' (CacheSaved LoadBooksSave now)) in
      loading w'' = false /\ initialLoading w'' = false
  end.
Proof.
  destruct w. destruct r; unfold_world; cbn; split_matches; cbn; auto;
    pending_contra.
Qed.

(** The mount-time network check can only set the offline flag (when
    subscribed, offline and with a local cache); it never clears it,
    never touches the list and issues nothing. *)
Theorem network_check_only_sets_offline (w : World) (s : NetworkState) :
  let '(w', outs) := step lc w (NetworkStateSettled s) in
  offlineMode w' = offlineMode w || (subscribed w && negb (isOnline s) && hasLocalCacheRef w) /\
  books w' = books w /\ outs = [].
Proof.
  destruct w as [bs ld il st th off ls hc pc cn sb sm ds sto ps].
  unfold_world; cbn.
  destruct sb, (isOnline s), hc, off; cbn; auto.
Qed.

(** A successful update keeps the length and order of the list and
    replaces exactly the books whose id is the edited book's id with the
    server's copy; every other book is left as it was. *)
Theorem update_success_replaces_matching (w : World) (book updated : Book)
  (rt : Q) (now : Z) (e : Event)
  (He : In e [ToggleReadSettled book (Ok updated) now;
              ToggleFavoriteSettled book (Ok updated) now;
              RateSettled book rt (Ok updated) now]) :
  let w' := fst (step lc w e) in
  length (books w') = length (books w) /\
  forall n item, nth_error (books w) n = Some item ->
    nth_error (books w') n =
      Some (if String.eqb (id item) (id book) then updated else item).
Proof.
  assert (Hb : books (fst (step lc w e)) = replaceBook (id book) updated (books w)).
  { destruct w.
    destruct He as [<- | [<- | [<- | []]]]; unfold_world; cbn -[replaceBook];
      split_matches; cbn; reflexivity. }
  cbn zeta. rewrite Hb. unfold replaceBook.
  split; [apply length_map |].
  intros n item Hn. rewrite nth_error_map, Hn. reflexivity.
Qed.

(** Until a local cache is known (no cache read and no successful fetch
    or update yet), no last-sync time is shown, and the list is empty
    unless a successful fetch is waiting on its cache write. *)
Theorem no_local_cache_no_sync (w : World) :
  reachable lc w -> hasLocalCacheRef w = false ->
  lastSync w = None /\
  (books w = [] \/ exists t, In (LoadBooksSave, t) (pendingSaves w)).
Proof.
  intros Hr Hc. exact (no_local_cache_invariant lc w Hr Hc).
Qed.

End ControllerFacts.

(** Toggling twice restores the flag: when the server echoes the [read]
    (or [favorite]) value sent by a toggle, the next toggle of that book
    sends the original value, a missing flag counting as [false]. *)
Theorem toggle_twice_restores (b : Book) :
  let b1 := mkBook (id b) (name b) (author b) (editor b) (year b)
              (p_read (toggleReadPayload b)) (favorite b) (theme b) (rating b) (cover b) in
  let b2 := mkBook (id b) (name b) (author b) (editor b) (year b)
              (read b) (p_favorite (toggleFavoritePayload b)) (theme b) (rating b) (cover b) in
  p_read (toggleReadPayload b1) = Some (truthy (read b)) /\
  p_favorite (toggleFavoritePayload b2) = Some (truthy (favorite b)).
Proof.
  cbn. destruct (read b) as [[] |], (favorite b) as [[] |]; split; reflexivity.
Qed.

(* ------------------------------------------------------------------ *)
(** ** Filters, form and detail screen *)

(** With a theme selection that is not the empty string, the filter reset
    is offered exactly when the request carries a filter or a sort other
    than the default: [hasActiveFilters] is false iff the query pairs are
    the (optional) trimmed search text followed by [sort=title] and
    [order=asc]. *)
Theorem hasActiveFilters_default_request (f : Filters)
  (Ht : selectedTheme f <> "") :
  hasActiveFilters f = false <->
  queryPairs (queryParams f) =
    app (if String.eqb (trim (search f)) "" then [] else [("q", trim (search f))])
        [("sort", "title"); ("order", "asc")].
Proof.
  apply String.eqb_neq in Ht.
  destruct f as [srch fr fav th so od].
  unfold hasActiveFilters, queryParams, queryPairs, jsTruthyString.
  cbn [gp_query gp_read gp_favorite gp_theme gp_sort gp_order
       search filterRead onlyFavorites selectedTheme sort order] in *.
  generalize (trim srch) as t; intros t.
  destruct (String.eqb t "") eqn:Eq, (String.eqb th "tous") eqn:Et,
    fr, fav, so, od; cbn [negb orb app sortFieldString sortOrderString];
    rewrite ?Eq, ?Ht; cbn [app];
    split; intros H; try reflexivity; discriminate.
Qed.

(** The form calls [onSubmit] exactly when the trimmed name and author are
    non-empty and the trimmed year text is empty or a number; the payload
    then carries the trimmed name and author and the parsed year. *)
Theorem formSubmit_validates (jsNumber : string -> option Q) (f : FormState) :
  let '(_, payload) := formSubmit jsNumber f in
  (payload = None <->
     trim (f_name f) = "" \/ trim (f_author f) = "" \/
     (trim (f_yearText f) <> "" /\ jsNumber (trim (f_yearText f)) = None)) /\
  (forall p, payload = Some p ->
     p_name p = trim (f_name f) /\ p_name p <> "" /\
     p_author p = trim (f_author f) /\ p_author p <> "" /\
     p_year p = (if String.eqb (trim (f_yearText f)) "" then None
                 else jsNumber (trim (f_yearText f)))).
Proof.
  unfold formSubmit.
  generalize (trim (f_name f)) (trim (f_author f)) (trim (f_yearText f)) (trim (f_editor f)).
  intros tn ta ty te.
  destruct (String.eqb tn "") eqn:En;
  destruct (String.eqb ta "") eqn:Ea;
  destruct (String.eqb ty "") eqn:Ey;
  try destruct (jsNumber ty) as [v |] eqn:Ev;
  apply String.eqb_eq in En || apply String.eqb_neq in En;
  apply String.eqb_eq in Ea || apply String.eqb_neq in Ea;
  apply String.eqb_eq in Ey || apply String.eqb_neq in Ey;
  cbn -[String.eqb];
  (split; [split; [intros H; try discriminate | intros H] | intros p Hp]);
  try discriminate;
  try (injection Hp as <-; cbn -[String.eqb]; rewrite ?Ev;
       repeat split; try assumption;
       destruct (String.eqb ty "") eqn:E2;
       first [apply String.eqb_eq in E2 | apply String.eqb_neq in E2]; congruence);
  intuition congruence.
Qed.

(** The detail screen's rating, unlike the list screen's, is not clamped:
    it sends the list screen's payload when [Math.round] of the value is
    in [1, 5], and nothing otherwise (nor before the book is loaded). *)
Theorem detail_rate_rejects_out_of_range (b : Book) (r : Q) :
  detailHandleRate None r = [] /\
  ((1 <= jsRound r <= 5)%Z ->
     detailHandleRate (Some b) r = [OUpdateBook (id b) (ratePayload b r)]) /\
  ((jsRound r < 1 \/ 5 < jsRound r)%Z -> detailHandleRate (Some b) r = []).
Proof.
  split; [reflexivity | split]; intros H; unfold detailHandleRate.
  - replace ((jsRound r <? 1)%Z || (5 <? jsRound r)%Z) with false
      by (symmetry; apply orb_false_iff; split; apply Z.ltb_ge; lia).
    unfold ratePayload, boundRating.
    replace (Z.min (Z.max (jsRound r) 1) 5) with (jsRound r) by lia.
    reflexivity.
  - replace ((jsRound r <? 1)%Z || (5 <? jsRound r)%Z) with true; [reflexivity |].
    symmetry; apply orb_true_iff.
    destruct H; [left | right]; apply Z.ltb_lt; lia.
Qed.

(* ------------------------------------------------------------------ *)
(** ** Concrete instances of the properties above *)

Lemma cache_load_requires_books_array_witness :
  loadBooksCacheJson (ReadText (Some (cachePayload [JStr "Dune"] 5))) 0 =
    Some ([JStr "Dune"], inject_Z 5) /\
  exists fields, ReadText (Some (cachePayload [JStr "Dune"] 5)) = ReadText (Some (JObj fields)) /\
    jget (JObj fields) "books" = Some (JArr [JStr "Dune"]).
Proof.
  assert (H : loadBooksCacheJson (ReadText (Some (cachePayload [JStr "Dune"] 5))) 0 =
                Some ([JStr "Dune"], inject_Z 5)) by reflexivity.
  split; [exact H |].
  exact (cache_load_requires_books_array _ 0 _ _ H).
Defined.

Lemma fetchEditionCount_scan_witness :
  let data := JObj [("docs", JArr [JObj [("title", JStr "Dune")]; JNull; JObj [("edition_count", JNum 3)]]);
                    ("numFound", JNum 12)] in
  WellFormedUtf16 [68; 117; 110; 101]%Z /\
  Forall (fun d => d <> JNull /\ forall q, jget d "edition_count" <> Some (JNum q))
    [JObj [("title", JStr "Dune")]] /\
  jget data "docs" = Some (JArr ([JObj [("title", JStr "Dune")]] ++
                                [JNull; JObj [("edition_count", JNum 3)]])) /\
  fetchEditionCountByTitle [68; 117; 110; 101]%Z (Response true 200 (Some data)) =
    inr (TError openLibraryError).
Proof.
  cbn zeta.
  assert (Ht : WellFormedUtf16 [68; 117; 110; 101]%Z).
  { repeat (apply wf_unit; [reflexivity | reflexivity |]). constructor. }
  assert (Hpre : Forall (fun d => d <> JNull /\ forall q, jget d "edition_count" <> Some (JNum q))
                   [JObj [("title", JStr "Dune")]]).
  { constructor; [split; [discriminate | intros q; cbn; discriminate] | constructor]. }
  assert (Hdocs : jget (JObj [("docs", JArr [JObj [("title", JStr "Dune")]; JNull;
                                             JObj [("edition_count", JNum 3)]]);
                              ("numFound", JNum 12)]) "docs" =
                  Some (JArr ([JObj [("title", JStr "Dune")]] ++
                              [JNull; JObj [("edition_count", JNum 3)]]))) by reflexivity.
  split; [exact Ht | split; [exact Hpre | split; [exact Hdocs |]]].
  exact (proj1 (proj2 (fetchEditionCount_scan _ Ht 200 _ _ _ Hpre Hdocs))
           [JObj [("edition_count", JNum 3)]] eq_refl).
Defined.

Lemma mapNote_injective_witness :
  mapNote (mkNoteResponse 12 3 "Relire" "2024-01-01") =
    mapNote (mkNoteResponse 12 3 "Relire" "2024-01-01") /\
  mkNoteResponse 12 3 "Relire" "2024-01-01" = mkNoteResponse 12 3 "Relire" "2024-01-01".
Proof.
  assert (H : mapNote (mkNoteResponse 12 3 "Relire" "2024-01-01") =
                mapNote (mkNoteResponse 12 3 "Relire" "2024-01-01")) by reflexivity.
  split; [exact H | exact (mapNote_injective _ _ H)].
Defined.

Lemma getBooks_only_on_mount_focus_reconnect_witness :
  In OGetBooks (snd (step String.compare worldOffline (NetworkChange connected))) /\
  (NetworkChange connected = Mount \/ NetworkChange connected = Focus \/
   exists s, NetworkChange connected = NetworkChange s /\ subscribed worldOffline = true /\
     isOnline s = true /\ offlineMode worldOffline = true).
Proof.
  assert (H : In OGetBooks (snd (step String.compare worldOffline (NetworkChange connected))))
    by (vm_compute; auto).
  split; [exact H |].
  exact (getBooks_only_on_mount_focus_reconnect String.compare _ _ H).
Defined.

Lemma offline_notice_only_from_failed_fetch_witness :
  In (OStatus offlineNotice)
     (snd (step String.compare worldWithCache (GetBooksSettled (Err "Network request failed") 3))) /\
  exists msg now, GetBooksSettled (Err "Network request failed") 3 = GetBooksSettled (Err msg) now /\
    hasLocalCacheRef worldWithCache = true /\ offlineMode worldWithCache = false.
Proof.
  assert (H : In (OStatus offlineNotice)
                 (snd (step String.compare worldWithCache
                         (GetBooksSettled (Err "Network request failed") 3))))
    by (vm_compute; auto).
  split; [exact H |].
  exact (offline_notice_only_from_failed_fetch String.compare _ _ H).
Defined.

Lemma update_success_replaces_matching_witness :
  let e := ToggleReadSettled (sampleBook "1" "Roman") (Ok (sampleBook "1" "Essai")) 7 in
  let w' := fst (step String.compare worldWithCache e) in
  length (books w') = length (books worldWithCache) /\
  forall n item, nth_error (books worldWithCache) n = Some item ->
    nth_error (books w') n =
      Some (if String.eqb (id item) (id (sampleBook "1" "Roman")) then sampleBook "1" "Essai" else item).
Proof.
  apply (update_success_replaces_matching String.compare worldWithCache
           (sampleBook "1" "Roman") (sampleBook "1" "Essai") 0 7).
  cbn. left. reflexivity.
Defined.

Lemma no_local_cache_no_sync_witness :
  reachable String.compare worldFetchSavePending /\
  hasLocalCacheRef worldFetchSavePending = false /\
  lastSync worldFetchSavePending = None /\
  (books worldFetchSavePending = [] \/
   exists t, In (LoadBooksSave, t) (pendingSaves worldFetchSavePending)).
Proof.
  assert (Hr : reachable String.compare worldFetchSavePending)
    by apply reachable_run, reachable_init.
  assert (Hc : hasLocalCacheRef worldFetchSavePending = false)
    by (vm_compute; reflexivity).
  split; [exact Hr | split; [exact Hc |]].
  exact (no_local_cache_no_sync String.compare _ Hr Hc).
Defined.

Lemma hasActiveFilters_default_request_witness :
  selectedTheme (mkFilters " Dune " Tous false "tous" SortTitle Asc) <> "" /\
  (hasActiveFilters (mkFilters " Dune " Tous false "tous" SortTitle Asc) = false <->
   queryPairs (queryParams (mkFilters " Dune " Tous false "tous" SortTitle Asc)) =
     app (if String.eqb (trim " Dune ") "" then [] else [("q", trim " Dune ")])
         [("sort", "title"); ("order", "asc")]).
Proof.
  assert (Ht : selectedTheme (mkFilters " Dune " Tous false "tous" SortTitle Asc) <> "")
    by discriminate.
  split; [exact Ht |].
  exact (hasActiveFilters_default_request _ Ht).
Defined.
